(** * CV Parser API: a shallow embedding of [app.py] and its properties

    The service has two HTTP operations.  [POST /parse-cv] takes an uploaded
    file, extracts the text of the PDF through PyPDF2, sends the text to a
    chat-completion service and returns the JSON value decoded from the
    completion.  [GET /health] reports a fixed status.

    Python code is embedded as follows.
    - [str] is [string], the text in UTF-8; [bytes] is [list byte].  The
      patterns searched in a text are ASCII, so that searching the bytes
      and searching the code points find the same places.
    - Decoded JSON (what [json.loads] returns, what a [dict] literal builds)
      is the tree type [json]; a [dict] keeps its insertion order.
    - A coroutine is a computation in the monad [M]: a function from the
      [world] (environment variables, file system, requests sent to the
      completion service, log records) to an outcome and a new world; the
      outcome is a returned value or a raised exception.
    - PyPDF2, the Cerebras client, the [json] decoder, the text of a
      Starlette [HTTPException] and the naming scheme of [tempfile] are
      outside the repository: they are the fields of the class
      [Collaborators], and every theorem holds for all of them. *)

From Stdlib Require Import ZArith.
From Stdlib.Strings Require Import Ascii String Byte.
From stdpp Require Import gmap strings list fin_maps infinite pretty.

Local Open Scope string_scope.
Local Open Scope Z_scope.

Set Warnings "-register-all".

(** ** Values *)

(** A decoded JSON document.  [JFloat] keeps the literal text of a number
    with a fraction or an exponent; no claim depends on its value. *)
Inductive json : Type :=
| JNull
| JBool (b : bool)
| JInt (n : Z)
| JFloat (literal : string)
| JStr (s : string)
| JList (items : list json)
| JDict (items : list (string * json)).

(** [isinstance(v, dict)]. *)
Definition is_dict (v : json) : bool :=
  match v with JDict _ => true | _ => false end.

(** The line feed, [\n] in the source's patterns. *)
Definition LF : string := String "010"%char "".

(** ** Exceptions *)

(** The exception classes the code distinguishes.  [OtherError msg] is
    any other subclass of [Exception] whose [str] is [msg]. *)
Inductive exn : Type :=
| OtherError (msg : string)
| JSONDecodeError (msg : string)
| HTTPException (status_code : Z) (detail : string).

Definition is_JSONDecodeError (e : exn) : bool :=
  match e with JSONDecodeError _ => true | _ => false end.

(** ** The world *)

(** One request sent to the completion service. *)
Record chat_request : Type := ChatRequest {
  req_api_key : string;
  req_model : string;
  req_messages : list (string * string)   (* role, content *)
}.

Record world : Type := World {
  environ : gmap string string;           (* os.environ *)
  files : gmap string (list byte);        (* path to content *)
  sent : list chat_request;               (* calls to the completion service, oldest first *)
  logged : list string                    (* logger.error records, oldest first *)
}.

Definition set_files (fs : gmap string (list byte)) (w : world) : world :=
  World (environ w) fs (sent w) (logged w).

(** ** External collaborators *)

Class Collaborators : Type := {
  (** [tempfile]: the name chosen for a new temporary file, given the
      files that exist; it is unique. *)
  mkstemp_name : gmap string (list byte) -> string;
  mkstemp_name_fresh : forall fs, fs !! mkstemp_name fs = None;
  (** [PyPDF2.PdfReader(file)] on the content of the file: either the
      [str] of the exception it raises, or the pages; a page is the
      outcome of its [extract_text()], again the [str] of an exception or
      the text. *)
  PdfReader : list byte -> string + list (string + string);
  (** [Cerebras(api_key=k).chat.completions.create(model=m, messages=ms)
      .choices[0].message.content]: the [str] of the exception raised on
      the way, or the content, which is a [str] or [None]. *)
  chat_completions_create :
    string -> string -> list (string * string) -> string + option string;
  (** [json.loads]: the exception it raises, or the value.  The exception
      is a [JSONDecodeError] for a document that is not JSON; the decoder
      raises others too, which are no [JSONDecodeError]: a [ValueError] for
      an integer of more digits than the interpreter converts, a
      [RecursionError] for a document nested too deep. *)
  json_loads : string -> exn + json;
  (** [str(e)] for a Starlette [HTTPException]. *)
  str_HTTPException : Z -> string -> string
}.

(** ** The monad of coroutines *)

Definition M (A : Type) : Type := world -> (exn + A) * world.

Definition ret {A} (a : A) : M A := fun w => (inr a, w).

Definition raise {A} (e : exn) : M A := fun w => (inl e, w).

Definition bind {A B} (m : M A) (k : A -> M B) : M B :=
  fun w =>
    match m w with
    | (inr a, w') => k a w'
    | (inl e, w') => (inl e, w')
    end.

Declare Scope py_scope.
Delimit Scope py_scope with py.
Notation "x <- m ;; k" := (bind m (fun x => k))
  (at level 100, m at next level, right associativity) : py_scope.
Notation "m ;;; k" := (bind m (fun _ => k))
  (at level 100, right associativity) : py_scope.
Local Open Scope py_scope.

(** [try: body except Exception as e: handler e]. *)
Definition try_except {A} (body : M A) (handler : exn -> M A) : M A :=
  fun w =>
    match body w with
    | (inl e, w') => handler e w'
    | r => r
    end.

(** [try: body except C as e: handler e] for an exception class [C]: an
    exception of another class propagates. *)
Definition try_except_class {A} (C : exn -> bool) (body : M A)
    (handler : exn -> M A) : M A :=
  try_except body (fun e => if C e then handler e else raise e).

(** The outcome of a library call, lifted: [inl msg] raises. *)
Definition lift_call {A} (mk : string -> exn) (r : string + A) : M A :=
  match r with
  | inl msg => raise (mk msg)
  | inr a => ret a
  end.

(** The outcome of a library call that tells the class of its exception. *)
Definition lift_exn {A} (r : exn + A) : M A :=
  match r with
  | inl e => raise e
  | inr a => ret a
  end.

Definition logger_error (msg : string) : M unit :=
  fun w => (inr tt, World (environ w) (files w) (sent w) (logged w ++ [msg])).

(** [os.environ.get(name)]. *)
Definition os_environ_get (name : string) : M (option string) :=
  fun w => (inr (environ w !! name), w).

(** Truth value of an [Optional[str]]: [None] and [""] are false. *)
Definition truthy (v : option string) : bool :=
  match v with
  | None => false
  | Some s => negb (bool_decide (s = ""))
  end.

(** ** Searching the completion

    The three [re.search] calls of lines 190, 195 and 200 all carry
    [re.DOTALL], so [.] matches every character, line feeds included. *)

(** [s] without its prefix [pat], when it has it. *)
Fixpoint strip_prefix (pat s : string) : option string :=
  match pat with
  | "" => Some s
  | String a pat' =>
      match s with
      | "" => None
      | String b s' => if bool_decide (a = b) then strip_prefix pat' s' else None
      end
  end.

(** The text before and after the leftmost occurrence of [pat] in [s]. *)
Fixpoint partition (pat s : string) : option (string * string) :=
  match strip_prefix pat s with
  | Some post => Some ("", post)
  | None =>
      match s with
      | "" => None
      | String c s' =>
          match partition pat s' with
          | Some (pre, post) => Some (String c pre, post)
          | None => None
          end
      end
  end.

(** The longest prefix of [s] that ends with the character [c]. *)
Fixpoint upto_last (c : ascii) (s : string) : option string :=
  match s with
  | "" => None
  | String a s' =>
      match upto_last c s' with
      | Some r => Some (String a r)
      | None => if bool_decide (a = c) then Some (String a "") else None
      end
  end.

(** [re.search(opener + r'(.*?)' + closer, s, re.DOTALL)] for literal
    [opener] and [closer], giving [group(1)]: the match starts at the
    leftmost [opener]; the lazy group then ends at the first [closer] that
    follows it.  When no [closer] follows the leftmost [opener], none
    follows a later one either, and there is no match. *)
Definition search_fenced (opener closer s : string) : option string :=
  match partition opener s with
  | Some (_, rest) =>
      match partition closer rest with
      | Some (group1, _) => Some group1
      | None => None
      end
  | None => None
  end.

(** [re.search(r'```json\n(.*?)\n```', s, re.DOTALL)], [group(1)]. *)
Definition search_json_fence (s : string) : option string :=
  search_fenced ("```json" ++ LF) (LF ++ "```") s.

(** [re.search(r'```\n(.*?)\n```', s, re.DOTALL)], [group(1)]. *)
Definition search_plain_fence (s : string) : option string :=
  search_fenced ("```" ++ LF) (LF ++ "```") s.

(** [re.search(r'\{.*\}', s, re.DOTALL)], [group(0)]: the match starts at
    the leftmost opening brace, and the greedy [.*] reaches the last closing
    brace after it. *)
Definition search_braces (s : string) : option string :=
  match partition "{" s with
  | Some (_, rest) =>
      match upto_last "}" rest with
      | Some r => Some (String "{" r)
      | None => None
      end
  | None => None
  end.

(** ** Literals of the source *)

(** The [dict] of lines 100 to 135. *)
Definition demo_cv : json :=
  JDict [
    ("name", JStr "John Doe");
    ("summary", JStr "Experienced software engineer with 5+ years in web development");
    ("contact", JDict [
       ("email", JStr "john.doe@example.com");
       ("phone", JStr "+1234567890");
       ("linkedin", JStr "linkedin.com/in/johndoe");
       ("github", JStr "github.com/johndoe");
       ("website", JStr "johndoe.com")]);
    ("education", JList [
       JDict [
         ("institution", JStr "University of Example");
         ("degree", JStr "Bachelor of Science");
         ("field_of_study", JStr "Computer Science");
         ("start_date", JStr "2015");
         ("end_date", JStr "2019")]]);
    ("experience", JList [
       JDict [
         ("company", JStr "Tech Company Inc.");
         ("position", JStr "Senior Software Engineer");
         ("start_date", JStr "2020");
         ("end_date", JStr "Present");
         ("description", JStr "Developed and maintained web applications using React and Node.js")]]);
    ("skills", JList [
       JDict [("name", JStr "JavaScript"); ("level", JStr "Expert")];
       JDict [("name", JStr "Python"); ("level", JStr "Intermediate")];
       JDict [("name", JStr "React"); ("level", JStr "Advanced")]]);
    ("languages", JList [JStr "English (Native)"; JStr "Spanish (Intermediate)"]);
    ("certifications", JList [JStr "AWS Certified Developer"; JStr "Scrum Master"])
  ].

(** The f-string of lines 141 to 168, before and after [{cv_text}]. *)
Definition prompt_head : string :=
  "
        You are an expert CV parser. Extract ALL important information from the following CV text.
        Analyze the CV thoroughly and identify ALL relevant sections and details.

        Return a RFC8259 compliant JSON object that captures the complete structure of the CV.
        Do not limit yourself to predefined sections - extract whatever sections and information are present in the CV.

        Common sections might include (but are not limited to):
        - Personal information (name, contact details)
        - Summary or objective
        - Work experience
        - Education
        - Skills or competencies
        - Projects
        - Publications
        - Certifications
        - Languages
        - Volunteer work
        - Awards and honors
        - References
        - Additional sections specific to this CV

        For each section, capture all relevant details in a structured format.
        Ensure your response is ONLY valid JSON with no additional text or explanation.

        CV Text:
        ".

Definition prompt_tail : string :=
  "
        ".

(** The [messages] argument of line 173. *)
Definition chat_messages (cv_text : string) : list (string * string) :=
  [("system", "You are an expert CV parser that outputs only valid JSON.");
   ("user", prompt_head ++ cv_text ++ prompt_tail)].

(** An uploaded file: the declared content type, which a client may
    leave out, and what [file.read()] gives. *)
Record UploadFile : Type := {
  content_type : option string;
  file_bytes : list byte
}.

(** What the framework sends: the status and the JSON body. *)
Record response : Type := Response {
  status : Z;
  body : json
}.

Section Program.

Context `{Collaborators}.

(** [str(e)]. *)
Definition str (e : exn) : string :=
  match e with
  | OtherError msg => msg
  | JSONDecodeError msg => msg
  | HTTPException code d => str_HTTPException code d
  end.

(** ** Files *)

(** [with tempfile.NamedTemporaryFile(delete=delete) as temp_file: body]:
    a new empty file under a unique name; when the block is left, by
    return or by exception, the file is closed, and removed if [delete]. *)
Definition with_NamedTemporaryFile {A} (delete : bool) (body : string -> M A)
    : M A :=
  fun w =>
    let name := mkstemp_name (files w) in
    let '(r, w') := body name (set_files (<[name := []]> (files w)) w) in
    (r, if delete then set_files (base.delete name (files w')) w' else w').

(** [temp_file.write(data)] on a file opened at its start. *)
Definition file_write (name : string) (data : list byte) : M unit :=
  fun w => (inr tt, set_files (<[name := data]> (files w)) w).

(** [with open(path, 'rb') as file]: the content read through [file]. *)
Definition open_rb (path : string) : M (list byte) :=
  fun w =>
    match files w !! path with
    | Some data => (inr data, w)
    | None =>
        (inl (OtherError ("[Errno 2] No such file or directory: '" ++ path ++ "'")), w)
    end.

(** [os.unlink(path)]. *)
Definition os_unlink (path : string) : M unit :=
  fun w =>
    match files w !! path with
    | Some _ => (inr tt, set_files (base.delete path (files w)) w)
    | None =>
        (inl (OtherError ("[Errno 2] No such file or directory: '" ++ path ++ "'")), w)
    end.

(** ** Text Extractor *)

(** [pages[page_num]]. *)
Definition subscript {A} (l : list A) (i : nat) : M A :=
  match l !! i with
  | Some a => ret a
  | None => raise (OtherError "sequence index out of range")
  end.

(** The loop of lines 83 to 85 over the remaining values of [page_num]. *)
Fixpoint extract_pages (pages : list (string + string)) (page_nums : list nat)
    (text : string) : M string :=
  match page_nums with
  | [] => ret text
  | page_num :: rest =>
      page <- subscript pages page_num ;;
      page_text <- lift_call OtherError page ;;
      extract_pages pages rest (text ++ page_text)
  end.

(** [extract_text_from_pdf], lines 65 to 92. *)
Definition extract_text_from_pdf (file_content : list byte) : M string :=
  try_except
    (temp_file_path <-
       with_NamedTemporaryFile false (fun name =>
         file_write name file_content ;;; ret name) ;;
     file <- open_rb temp_file_path ;;
     pdf_reader <- lift_call OtherError (PdfReader file) ;;
     text <- extract_pages pdf_reader (seq 0 (length pdf_reader)) "" ;;
     os_unlink temp_file_path ;;;
     ret text)
    (fun e =>
       logger_error ("Error extracting text from PDF: " ++ str e) ;;;
       raise (HTTPException 500 ("Error extracting text from PDF: " ++ str e))).

(** ** CV Structurer *)

(** The completion service is called and the call is recorded. *)
Definition completion (api_key model : string)
    (messages : list (string * string)) : M (option string) :=
  fun w =>
    let w' := World (environ w) (files w)
                (sent w ++ [ChatRequest api_key model messages]) (logged w) in
    lift_call OtherError (chat_completions_create api_key model messages) w'.

(** Lines 183 to 206: from the completion's content to the value that is
    returned. *)
Definition decode_content (content : option string) : M json :=
  match content with
  | Some content =>
      try_except_class is_JSONDecodeError
        (lift_exn (json_loads content))
        (fun _ =>
           match search_json_fence content with
           | Some group1 => lift_exn (json_loads group1)
           | None =>
               match search_plain_fence content with
               | Some group1 => lift_exn (json_loads group1)
               | None =>
                   match search_braces content with
                   | Some group0 => lift_exn (json_loads group0)
                   | None =>
                       raise (HTTPException 500 "Failed to parse LLM response as JSON")
                   end
               end
           end)
  | None => ret JNull
  end.

(** [parse_cv_with_llm], lines 94 to 210. *)
Definition parse_cv_with_llm (cv_text : string) : M json :=
  try_except
    (key <- os_environ_get "CEREBRAS_API_KEY" ;;
     if negb (truthy key) then ret demo_cv
     else
       api_key <- os_environ_get "CEREBRAS_API_KEY" ;;
       content <- completion (default "" api_key) "llama3.1-8b"
                    (chat_messages cv_text) ;;
       decode_content content)
    (fun e =>
       logger_error ("Error parsing CV with LLM: " ++ str e) ;;;
       raise (HTTPException 500 ("Error parsing CV with LLM: " ++ str e))).

(** ** Request orchestration *)

(** [parse_cv], lines 212 to 242. *)
Definition parse_cv (file : UploadFile) : M json :=
  if bool_decide (content_type file ≠ Some "application/pdf") then
    raise (HTTPException 400 "Only PDF files are supported")
  else
    file_content <- ret (file_bytes file) ;;
    cv_text <- extract_text_from_pdf file_content ;;
    try_except
      (parsed_data <- parse_cv_with_llm cv_text ;;
       ret parsed_data)
      (fun e =>
         logger_error ("Error processing CV: " ++ str e) ;;;
         raise (HTTPException 500
                  ("Failed to process CV: " ++ str e
                   ++ ". Please ensure the PDF is valid and not corrupted."))).

(** [health_check], lines 244 to 247. *)
Definition health_check : M json :=
  ret (JDict [("status", JStr "healthy")]).

(** The framework around a path operation: a returned value is sent with
    status 200, an [HTTPException] with its status and its detail, any
    other exception as an internal server error. *)
Definition serve (handler : M json) (w : world) : response * world :=
  match handler w with
  | (inr v, w') => (Response 200 v, w')
  | (inl (HTTPException code d), w') => (Response code (JDict [("detail", JStr d)]), w')
  | (inl _, w') => (Response 500 (JStr "Internal Server Error"), w')
  end.

(** [POST /parse-cv]. *)
Definition post_parse_cv (file : UploadFile) : world -> response * world :=
  serve (parse_cv file).

(** [GET /health]. *)
Definition get_health : world -> response * world :=
  serve health_check.

End Program.

(** ** A reference decoder

    The theorems below hold for every [json_loads].  For closed examples
    a decoder is needed; this one follows the grammar of Python's [json]
    scanner on the UTF-8 text of the document: white space is space, tab,
    line feed and carriage return; a number is an optional minus sign, an
    integer part without superfluous leading zero, an optional fraction
    and an optional exponent, and it is an [int] when it has neither
    fraction nor exponent; [NaN], [Infinity] and [-Infinity] are accepted;
    a string may not hold a control character; a repeated key keeps its
    first position and takes the last value; nothing but white space may
    follow the value.  An integer of more than 4300 digits is refused with
    the [ValueError] of the interpreter's default limit, which is no
    [JSONDecodeError].  The interpreter's limit on nesting is not
    modelled. *)
Module Decoder.

(** What a scanner gives: a value and the rest of the text, a text that
    is not JSON, or an integer of too many digits. *)
Inductive scanned : Type :=
| Scanned (v : json) (rest : string)
| Malformed
| TooLong (digits : nat).

Definition is_ws (c : ascii) : bool :=
  bool_decide (c = " "%char) || bool_decide (c = "009"%char)
  || bool_decide (c = "010"%char) || bool_decide (c = "013"%char).

Fixpoint skip_ws (s : string) : string :=
  match s with
  | String c s' => if is_ws c then skip_ws s' else s
  | "" => ""
  end.

Definition is_digit (c : ascii) : bool :=
  let n := nat_of_ascii c in ((48 <=? n) && (n <=? 57))%nat.

(** The longest prefix of digits, and the rest. *)
Fixpoint digits (s : string) : string * string :=
  match s with
  | String c s' =>
      if is_digit c then let '(d, r) := digits s' in (String c d, r)
      else ("", s)
  | "" => ("", "")
  end.

Fixpoint Z_of_digits (acc : Z) (d : string) : Z :=
  match d with
  | String c d' => Z_of_digits (10 * acc + (Z.of_nat (nat_of_ascii c) - 48)) d'
  | "" => acc
  end.

(** A number at the start of [s]. *)
Definition scan_number (s : string) : scanned :=
  let '(sign, s1) :=
    match s with String "-" r => ("-", r) | _ => ("", s) end in
  let '(int, s2) :=
    match s1 with
    | String "0" r => ("0", r)
    | _ => digits s1
    end in
  if bool_decide (int = "") then Malformed
  else
    let '(frac, s3) :=
      match s2 with
      | String "." r =>
          match digits r with
          | ("", _) => ("", s2)
          | (f, r') => (String "." f, r')
          end
      | _ => ("", s2)
      end in
    let '(exp, s4) :=
      match s3 with
      | String e r =>
          if bool_decide (e = "e"%char) || bool_decide (e = "E"%char) then
            let '(sg, r1) :=
              match r with
              | String "-" r' => ("-", r')
              | String "+" r' => ("+", r')
              | _ => ("", r)
              end in
            match digits r1 with
            | ("", _) => ("", s3)
            | (d, r2) => (String e (sg ++ d), r2)
            end
          else ("", s3)
      | "" => ("", s3)
      end in
    if bool_decide (frac = "") && bool_decide (exp = "") then
      if (4300 <? String.length int)%nat then TooLong (String.length int)
      else
        Scanned (JInt (if bool_decide (sign = "") then Z_of_digits 0 int
                       else - Z_of_digits 0 int)) s4
    else Scanned (JFloat (sign ++ int ++ frac ++ exp)) s4.

Definition hex_val (c : ascii) : option N :=
  let n := N_of_ascii c in
  if ((48 <=? n) && (n <=? 57))%N then Some (n - 48)%N
  else if ((97 <=? n) && (n <=? 102))%N then Some (n - 87)%N
  else if ((65 <=? n) && (n <=? 70))%N then Some (n - 55)%N
  else None.

Definition hex4 (a b c d : ascii) : option N :=
  x ← hex_val a; y ← hex_val b; z ← hex_val c; t ← hex_val d;
  Some (((x * 16 + y) * 16 + z) * 16 + t)%N.

(** The UTF-8 bytes of a code point (a lone surrogate is encoded like any
    other code point of its range). *)
Definition utf8 (cp : N) : string :=
  let b (n : N) := ascii_of_N n in
  (if cp <? 128 then String (b cp) ""
   else if cp <? 2048 then
     String (b (192 + cp / 64)) (String (b (128 + cp mod 64)) "")
   else if cp <? 65536 then
     String (b (224 + cp / 4096))
       (String (b (128 + (cp / 64) mod 64)) (String (b (128 + cp mod 64)) ""))
   else
     String (b (240 + cp / 262144))
       (String (b (128 + (cp / 4096) mod 64))
          (String (b (128 + (cp / 64) mod 64))
             (String (b (128 + cp mod 64)) ""))))%N.

Definition simple_escape (e : ascii) : option ascii :=
  if bool_decide (e = "034"%char) then Some "034"%char
  else if bool_decide (e = "\"%char) then Some "\"%char
  else if bool_decide (e = "/"%char) then Some "/"%char
  else if bool_decide (e = "b"%char) then Some "008"%char
  else if bool_decide (e = "f"%char) then Some "012"%char
  else if bool_decide (e = "n"%char) then Some "010"%char
  else if bool_decide (e = "r"%char) then Some "013"%char
  else if bool_decide (e = "t"%char) then Some "009"%char
  else None.

Definition prepend (p : string) (r : option (string * string))
    : option (string * string) :=
  match r with
  | Some (t, rest) => Some (p ++ t, rest)
  | None => None
  end.

(** The string whose opening quote has just been read. *)
Fixpoint scan_string (s : string) : option (string * string) :=
  match s with
  | "" => None
  | String c s' =>
      if bool_decide (c = "034"%char) then Some ("", s')
      else if bool_decide (c = "\"%char) then
        match s' with
        | "" => None
        | String e s2 =>
            match simple_escape e with
            | Some ch => prepend (String ch "") (scan_string s2)
            | None =>
                if bool_decide (e = "u"%char) then
                  match s2 with
                  | String h1 (String h2 (String h3 (String h4 s3))) =>
                      match hex4 h1 h2 h3 h4 with
                      | None => None
                      | Some hi =>
                          let lone := prepend (utf8 hi) (scan_string s3) in
                          if ((55296 <=? hi) && (hi <=? 56319))%N then
                            match s3 with
                            | String "\" (String "u" (String l1 (String l2
                                (String l3 (String l4 s4))))) =>
                                match hex4 l1 l2 l3 l4 with
                                | Some lo =>
                                    if ((56320 <=? lo) && (lo <=? 57343))%N then
                                      prepend
                                        (utf8 (65536 + (hi - 55296) * 1024
                                               + (lo - 56320))%N)
                                        (scan_string s4)
                                    else lone
                                | None => lone
                                end
                            | _ => lone
                            end
                          else lone
                      end
                  | _ => None
                  end
                else None
            end
        end
      else if (nat_of_ascii c <? 32)%nat then None
      else prepend (String c "") (scan_string s')
  end.

(** [d[k] = v]. *)
Fixpoint dict_set (k : string) (v : json) (d : list (string * json))
    : list (string * json) :=
  match d with
  | [] => [(k, v)]
  | (k', v') :: d' =>
      if bool_decide (k = k') then (k, v) :: d' else (k', v') :: dict_set k v d'
  end.

(** [scan_value] reads a value at the start of [s]; [scan_items] the rest
    of an array from the start of an item; [scan_pairs] the rest of an
    object from the start of a key.  Each call spends one unit of [fuel]. *)
Fixpoint scan_value (fuel : nat) (s : string) : scanned :=
  match fuel with
  | O => Malformed
  | S fuel =>
      match s with
      | String "034" r =>
          match scan_string r with
          | Some (t, rest) => Scanned (JStr t) rest
          | None => Malformed
          end
      | String "{" r =>
          match skip_ws r with
          | String "}" rest => Scanned (JDict []) rest
          | r' => scan_pairs fuel [] r'
          end
      | String "[" r =>
          match skip_ws r with
          | String "]" rest => Scanned (JList []) rest
          | r' => scan_items fuel [] r'
          end
      | _ =>
          match strip_prefix "null" s with
          | Some rest => Scanned JNull rest
          | None =>
          match strip_prefix "true" s with
          | Some rest => Scanned (JBool true) rest
          | None =>
          match strip_prefix "false" s with
          | Some rest => Scanned (JBool false) rest
          | None =>
          match strip_prefix "NaN" s with
          | Some rest => Scanned (JFloat "NaN") rest
          | None =>
          match strip_prefix "Infinity" s with
          | Some rest => Scanned (JFloat "Infinity") rest
          | None =>
          match strip_prefix "-Infinity" s with
          | Some rest => Scanned (JFloat "-Infinity") rest
          | None => scan_number s
          end end end end end end
      end
  end
with scan_items (fuel : nat) (acc : list json) (s : string) : scanned :=
  match fuel with
  | O => Malformed
  | S fuel =>
      match scan_value fuel s with
      | Scanned v rest =>
          match skip_ws rest with
          | String "]" rest' => Scanned (JList (acc ++ [v])) rest'
          | String "," rest' => scan_items fuel (acc ++ [v]) (skip_ws rest')
          | _ => Malformed
          end
      | refusal => refusal
      end
  end
with scan_pairs (fuel : nat) (acc : list (string * json)) (s : string)
    : scanned :=
  match fuel with
  | O => Malformed
  | S fuel =>
      match s with
      | String "034" r =>
          match scan_string r with
          | Some (k, rest) =>
              match skip_ws rest with
              | String ":" rest1 =>
                  match scan_value fuel (skip_ws rest1) with
                  | Scanned v rest2 =>
                      match skip_ws rest2 with
                      | String "}" rest3 => Scanned (JDict (dict_set k v acc)) rest3
                      | String "," rest3 =>
                          scan_pairs fuel (dict_set k v acc) (skip_ws rest3)
                      | _ => Malformed
                      end
                  | refusal => refusal
                  end
              | _ => Malformed
              end
          | None => Malformed
          end
      | _ => Malformed
      end
  end.

(** The whole document: white space, one value, white space.  The fuel
    bounds the depth of the calls; a call that reads nothing ([scan_items]
    handing its item to [scan_value]) follows one that read a bracket or a
    comma, so two units for each character are enough.  The wording of a
    [JSONDecodeError] is not modelled: one text stands for all of them. *)
Definition decode (s : string) : exn + json :=
  match scan_value (2 * String.length s + 2) (skip_ws s) with
  | Scanned v rest =>
      if bool_decide (skip_ws rest = "") then inr v
      else inl (JSONDecodeError "not a JSON document")
  | Malformed => inl (JSONDecodeError "not a JSON document")
  | TooLong digits =>
      inl (OtherError
             ("Exceeds the limit (4300 digits) for integer string conversion: value has "
              ++ pretty (Z.of_nat digits)
              ++ " digits; use sys.set_int_max_str_digits() to increase the limit"))
  end.

End Decoder.

(** ** What reading a document gives

    [join_pages] is the text of the pages in their order, or the [str] of
    the exception of the first page that cannot be read; [read_pdf] is the
    same for the bytes of a document.  They state what the loop of
    [extract_text_from_pdf] computes. *)
Fixpoint join_pages (pages : list (string + string)) : string + string :=
  match pages with
  | [] => inr ""
  | inl msg :: _ => inl msg
  | inr page_text :: later =>
      match join_pages later with
      | inl msg => inl msg
      | inr text => inr (page_text ++ text)
      end
  end.

Definition read_pdf `{Collaborators} (content : list byte) : string + string :=
  match PdfReader content with
  | inl msg => inl msg
  | inr pages => join_pages pages
  end.

(** ** The recovery chain as the specification words it

    Section 4.2 of the specification lists the recovery steps as
    attempts that each succeed or hand over to the next one, the first
    success being the result.  [recovery_chain] follows those words, for
    comparison with [decode_content], which follows the source. *)

(** The candidates in priority order: the whole completion, the content
    of a fenced block labelled [json], the content of an unlabelled fenced
    block, the text from the first opening to the last closing brace. *)
Definition recovery_steps : list (string -> option string) :=
  [Some; search_json_fence; search_plain_fence; search_braces].

(** The value of the first step that finds a candidate and decodes it. *)
Fixpoint first_success (loads : string -> exn + json)
    (steps : list (string -> option string)) (content : string)
    : option json :=
  match steps with
  | [] => None
  | step :: later =>
      match step content with
      | Some candidate =>
          match loads candidate with
          | inr v => Some v
          | inl _ => first_success loads later content
          end
      | None => first_success loads later content
      end
  end.

Definition recovery_chain (loads : string -> exn + json)
    (content : string) : option json :=
  first_success loads recovery_steps content.

(** The candidate of the first pattern that matches. *)
Fixpoint first_match (patterns : list (string -> option string))
    (content : string) : option string :=
  match patterns with
  | [] => None
  | pattern :: later =>
      match pattern content with
      | Some candidate => Some candidate
      | None => first_match later content
      end
  end.

(** [c] does not occur in [s]. *)
Fixpoint absent (c : ascii) (s : string) : Prop :=
  match s with
  | "" => True
  | String a s' => a <> c /\ absent c s'
  end.

(** [group] is the text of [s] between the literals [opener] and
    [closer]. *)
Definition fenced_in (opener closer s group : string) : Prop :=
  exists before after, s = before ++ opener ++ group ++ closer ++ after.


(** ** Collaborators and worlds of the closed examples *)

(** [text] with every apostrophe turned into a double quote, to write
    JSON documents legibly. *)
Fixpoint json_text (text : string) : string :=
  match text with
  | "" => ""
  | String c rest =>
      String (if bool_decide (c = "'"%char) then "034"%char else c)
        (json_text rest)
  end.

(** Temporary names from stdpp's [fresh], the reference decoder, the text
    [status_code: detail] that Starlette gives an [HTTPException], and a
    PDF reader and a completion service of the example's choice.  The
    wording of a [JSONDecodeError] is not modelled: one text stands for
    all of them, and no example states it. *)
Definition example_collaborators
    (reader : list byte -> string + list (string + string))
    (chat : string -> string -> list (string * string) -> string + option string)
    : Collaborators := {|
  mkstemp_name fs := fresh (dom fs);
  mkstemp_name_fresh fs := proj1 (not_elem_of_dom fs _) (is_fresh (dom fs));
  PdfReader := reader;
  chat_completions_create := chat;
  json_loads := Decoder.decode;
  str_HTTPException code d := pretty code ++ ": " ++ d
|}.

(** A reader that finds no PDF in the file. *)
Definition unreadable : list byte -> string + list (string + string) :=
  fun _ => inl "EOF marker not found".

(** A reader that finds a document with the given page texts. *)
Definition pages_of (texts : list string)
    : list byte -> string + list (string + string) :=
  fun _ => inr (inr <$> texts).

(** A completion service that answers [answer] to every request. *)
Definition answering (answer : string)
    : string -> string -> list (string * string) -> string + option string :=
  fun _ _ _ => inr (Some answer).

(** A completion service that cannot be reached. *)
Definition offline
    : string -> string -> list (string * string) -> string + option string :=
  fun _ _ _ => inl "Connection error.".

(** No file, nothing sent or logged; without and with a credential. *)
Definition demo_world : world := World ∅ ∅ [] [].

Definition keyed_world : world :=
  World {[ "CEREBRAS_API_KEY" := "csk-example" ]} ∅ [] [].

Definition pdf_upload (data : string) : UploadFile :=
  {| content_type := Some "application/pdf";
     file_bytes := list_byte_of_string data |}.

(** A completion whose [json] block does not hold JSON, followed by an
    object. *)
Definition garbled_fence_completion : string :=
  "```json" ++ LF ++ "not json" ++ LF ++ "```" ++ LF ++ json_text "{'a': 1}".

(** An upload that declares plain text. *)
Definition text_upload : UploadFile :=
  {| content_type := Some "text/plain";
     file_bytes := list_byte_of_string "hello" |}.

(** The collaborators of the examples: [no_pdf] finds no PDF in any
    file; [blank_pdf] finds a document without pages; [two_pages] finds the
    pages [Hello ] and [World]; the last three find a one-page document and
    have a completion service that answers the garbled completion, answers
    a JSON array, or cannot be reached. *)
Definition no_pdf : Collaborators := example_collaborators unreadable offline.

Definition blank_pdf : Collaborators :=
  example_collaborators (pages_of []) offline.

Definition two_pages : Collaborators :=
  example_collaborators (pages_of ["Hello "; "World"]) offline.

Definition garbled : Collaborators :=
  example_collaborators (pages_of ["cv"]) (answering garbled_fence_completion).

Definition listing : Collaborators :=
  example_collaborators (pages_of ["cv"]) (answering "[1, 2]").

Definition unreachable : Collaborators :=
  example_collaborators (pages_of ["cv"]) offline.

(** ** FlexibleModel, lines 35 to 58

    The objects that reach [FlexibleModel.__init__]: the values of decoded
    JSON, and instances of the model.  An instance is [VModel fields],
    where [fields] are the keyword arguments that [__init__] handed to
    [BaseModel.__init__] at line 49, in their order. *)
Inductive pyobj : Type :=
| VNone
| VBool (b : bool)
| VInt (n : Z)
| VFloat (literal : string)
| VStr (s : string)
| VList (items : list pyobj)
| VDict (items : list (string * pyobj))
| VModel (fields : list (string * pyobj)).

(** [key in data]. *)
Definition has_key {A} (key : string) (data : list (string * A)) : bool :=
  existsb (fun kv => bool_decide (kv.1 = key)) data.

(** [convert value] is what [data[key]] holds after lines 42 to 48 for a
    [value] found under [key], or [None] when a [TypeError] is raised on the
    way.  For a [dict] it is [FlexibleModel] called with the items of the
    [dict] as keyword arguments: the call binds the keys to the parameters
    [self] and [data] of [__init__], which fails when a key is [self];
    otherwise every value is converted in turn.  For a [list] every item
    that is a [dict] becomes a [FlexibleModel] in the same way and every
    other item is kept.  Any other value is kept. *)
Fixpoint convert (value : pyobj) : option pyobj :=
  match value with
  | VDict data =>
      if has_key "self" data then None
      else
        VModel <$>
          (fix fields (data : list (string * pyobj))
             : option (list (string * pyobj)) :=
             match data with
             | [] => Some []
             | (key, value) :: rest =>
                 value' ← convert value;
                 rest' ← fields rest;
                 Some ((key, value') :: rest')
             end) data
  | VList items =>
      VList <$>
        (fix each (items : list pyobj) : option (list pyobj) :=
           match items with
           | [] => Some []
           | item :: rest =>
               item' ← match item with
                       | VDict _ => convert item
                       | _ => Some item
                       end;
               rest' ← each rest;
               Some (item' :: rest')
           end) items
  | _ => Some value
  end.

(** [FlexibleModel] called with the keyword arguments [data]. *)
Definition FlexibleModel (data : list (string * pyobj)) : option pyobj :=
  convert (VDict data).

(** A decoded JSON value as an object. *)
Fixpoint of_json (v : json) : pyobj :=
  match v with
  | JNull => VNone
  | JBool b => VBool b
  | JInt n => VInt n
  | JFloat literal => VFloat literal
  | JStr s => VStr s
  | JList items => VList (map of_json items)
  | JDict items => VDict (map (fun kv => let '(k, x) := kv in (k, of_json x)) items)
  end.

(** No [dict] is left in the object, at any depth. *)
Fixpoint dict_free (v : pyobj) : bool :=
  match v with
  | VDict _ => false
  | VList items => forallb dict_free items
  | VModel fields => forallb (fun kv => let '(_, x) := kv in dict_free x) fields
  | _ => true
  end.

(** The object holds no instance of a model, no key [self], and no list
    that is directly an item of a list. *)
Fixpoint plain_and_flat (v : pyobj) : bool :=
  match v with
  | VDict data =>
      negb (has_key "self" data)
      && forallb (fun kv => let '(_, x) := kv in plain_and_flat x) data
  | VList items =>
      forallb (fun item =>
                 match item with
                 | VList _ => false
                 | _ => plain_and_flat item
                 end) items
  | VModel _ => false
  | _ => true
  end.

(** ** Further collaborators, worlds and objects of the examples *)

(** A reader that finds three pages, the second of which is damaged. *)
Definition damaged_page : Collaborators :=
  example_collaborators
    (fun _ => inr [inr "Hello "; inl "page 2 is damaged"; inr "World"])
    offline.


(** A completion service whose completion has no content. *)
Definition silent : Collaborators :=
  example_collaborators (pages_of ["cv"]) (fun _ _ _ => inr None).

(** A world with a credential and a file. *)
Definition busy_world : world :=
  World {[ "CEREBRAS_API_KEY" := "csk-example" ]}
    {[ "/srv/notes.txt" := list_byte_of_string "keep me" ]} [] [].

(** Keyword arguments with a nested object, a list of objects, and a list
    in a list. *)
Definition nested_data : list (string * pyobj) :=
  [("name", VStr "Alice");
   ("contact", VDict [("email", VStr "alice@example.com")]);
   ("skills", VList [VDict [("name", VStr "Python")]; VStr "Rocq"])].

Definition matrix_data : list (string * pyobj) :=
  [("rows", VList [VList [VDict [("cell", VInt 1)]]])].

Definition self_data : list (string * pyobj) :=
  [("notes", VList [VDict [("self", VStr "assessment")]])].

(** A completion that starts with an integer of 5000 digits and goes on
    with an object, and a completion service that answers it. *)
Definition long_integer_completion : string :=
  String.concat "" (replicate 5000 "1") ++ json_text " {'a': 1}".

Definition long_integer : Collaborators :=
  example_collaborators (pages_of ["cv"]) (answering long_integer_completion).

(** * Properties *)

(** ** Strings *)

#[local] Arguments String.append !_ _ / : simpl nomatch.

Section StringFacts.

Lemma append_nil_r (s : string) : s ++ "" = s.
Proof. induction s as [|c s IH]; simpl; [done | by rewrite IH]. Qed.

Lemma append_assoc (s t u : string) : (s ++ t) ++ u = s ++ t ++ u.
Proof. induction s as [|c s IH]; simpl; [done | by rewrite IH]. Qed.

Lemma strip_prefix_Some (pat s r : string) :
  strip_prefix pat s = Some r <-> s = pat ++ r.
Proof.
  revert s. induction pat as [|a pat IH]; intros s; simpl.
  - split; intros E; [by inversion E | by subst].
  - destruct s as [|b s].
    + split; intros E; discriminate E.
    + case_bool_decide as Hab.
      * subst b. rewrite IH. split; intros E; [by subst | by inversion E].
      * split; intros E; [discriminate E | inversion E; by subst].
Qed.

Lemma partition_Some (pat s pre post : string) :
  partition pat s = Some (pre, post) -> s = pre ++ pat ++ post.
Proof.
  revert pre. induction s as [|c s IH]; intros pre; simpl.
  - destruct (strip_prefix pat "") as [r|] eqn:E; [|done].
    intros [= <- <-]. by apply strip_prefix_Some in E.
  - destruct (strip_prefix pat (String c s)) as [r|] eqn:E.
    + intros [= <- <-]. by apply strip_prefix_Some in E.
    + destruct (partition pat s) as [[pre0 post0]|] eqn:E'; [|done].
      intros [= <- <-]. simpl. f_equal. by apply IH.
Qed.

(** The occurrence that [partition] finds is the leftmost one. *)
Lemma partition_leftmost (pat s pre post : string) :
  partition pat s = Some (pre, post) ->
  forall pre' post', s = pre' ++ pat ++ post' ->
  (String.length pre <= String.length pre')%nat.
Proof.
  revert pre. induction s as [|c s IH]; intros pre; simpl.
  - destruct (strip_prefix pat "") as [r|] eqn:E; [|done].
    intros [= <- <-] pre' post' _. simpl. lia.
  - destruct (strip_prefix pat (String c s)) as [r|] eqn:E.
    + intros [= <- <-] pre' post' _. simpl. lia.
    + destruct (partition pat s) as [[pre0 post0]|] eqn:E'; [|done].
      intros [= <- <-] pre' post' Hs.
      destruct pre' as [|c' pre']; simpl in Hs.
      * apply strip_prefix_Some in Hs. congruence.
      * injection Hs as -> Hs. simpl.
        specialize (IH pre0 eq_refl pre' post' Hs). lia.
Qed.

Lemma partition_None (pat s : string) :
  partition pat s = None -> forall pre post, s <> pre ++ pat ++ post.
Proof.
  induction s as [|c s IH]; simpl.
  - destruct (strip_prefix pat "") as [r|] eqn:E; [done|].
    intros _ pre post Hs. destruct pre; simpl in Hs; [|done].
    apply strip_prefix_Some in Hs. congruence.
  - destruct (strip_prefix pat (String c s)) as [r|] eqn:E; [done|].
    destruct (partition pat s) as [[pre0 post0]|] eqn:E'; [done|].
    intros _ pre post Hs. destruct pre as [|c' pre]; simpl in Hs.
    + apply strip_prefix_Some in Hs. congruence.
    + injection Hs as -> Hs. by apply (IH eq_refl pre post).
Qed.



Lemma upto_last_None (c : ascii) (s : string) :
  upto_last c s = None <-> absent c s.
Proof.
  induction s as [|a s IH]; simpl; [done|].
  destruct (upto_last c s) as [r|].
  - split; [done | intros [_ Habs]; by apply IH in Habs].
  - case_bool_decide as Hac.
    + split; [done | intros [Hne _]; done].
    + split; [intros _; split; [done | by apply IH] | done].
Qed.

Lemma upto_last_sound (c : ascii) (s r : string) :
  upto_last c s = Some r ->
  exists inner after,
    r = inner ++ String c "" /\ s = r ++ after /\ absent c after.
Proof.
  revert r. induction s as [|a s IH]; intros r; simpl; [done|].
  intros Hr. destruct (upto_last c s) as [r0|] eqn:E.
  - injection Hr as <-.
    destruct (IH r0 eq_refl) as (inner0 & after0 & -> & Hs & Habs).
    exists (String a inner0), after0. simpl.
    split; [done|]. split; [by f_equal | done].
  - case_bool_decide as Hac; [|done]. injection Hr as <-. subst a.
    exists "", s. simpl. split; [done|]. split; [done|].
    by apply upto_last_None.
Qed.

Lemma upto_last_app (c : ascii) (inner after : string) :
  absent c after ->
  upto_last c (inner ++ String c after) = Some (inner ++ String c "").
Proof.
  intros Habs. induction inner as [|a inner IH]; simpl.
  - apply upto_last_None in Habs. rewrite Habs. by rewrite bool_decide_true.
  - by rewrite IH.
Qed.

Lemma upto_last_Some (c : ascii) (s r : string) :
  upto_last c s = Some r <->
  exists inner after,
    r = inner ++ String c "" /\ s = r ++ after /\ absent c after.
Proof.
  split; [apply upto_last_sound|].
  intros (inner & after & -> & -> & Habs).
  rewrite append_assoc. simpl. by apply upto_last_app.
Qed.

(** ** The three patterns *)

Lemma search_fenced_sound (opener closer s group : string) :
  search_fenced opener closer s = Some group ->
  fenced_in opener closer s group.
Proof.
  unfold search_fenced, fenced_in.
  destruct (partition opener s) as [[before rest]|] eqn:E1; [|done].
  destruct (partition closer rest) as [[g after]|] eqn:E2; [|done].
  intros [= <-]. exists before, after.
  apply partition_Some in E1, E2. by rewrite E1, E2.
Qed.


(** When [o ++ r] also reads [b ++ u ++ o ++ t], the text [t] ends [r]. *)
Lemma append_overlap (o b u r t : string) :
  o ++ r = b ++ u ++ o ++ t -> exists y, r = y ++ t.
Proof.
  revert b u. induction o as [|a o IH]; intros b u Heq.
  - simpl in Heq. exists (b ++ u). subst r. by rewrite append_assoc.
  - destruct b as [|b0 b]; simpl in Heq.
    + destruct u as [|c u]; simpl in Heq.
      * apply (inj (String.append (String a o))) in Heq. by exists "".
      * injection Heq as <- Heq. apply (IH "" (u ++ String a "")).
        simpl. by rewrite append_assoc.
    + injection Heq as <- Heq. apply (IH b (u ++ String a "")).
      by rewrite append_assoc.
Qed.

(** No match means that no opener is followed by a closer. *)
Lemma search_fenced_None (opener closer s : string) :
  search_fenced opener closer s = None ->
  forall group, ~ fenced_in opener closer s group.
Proof.
  unfold search_fenced, fenced_in.
  destruct (partition opener s) as [[before rest]|] eqn:E1.
  - destruct (partition closer rest) as [[g after]|] eqn:E2; [done|].
    intros _ group (before' & after' & Hs).
    pose proof (partition_leftmost _ _ _ _ E1 _ _ Hs) as Hle.
    apply partition_Some in E1. subst s.
    revert before' Hs Hle.
    induction before as [|c before IH]; intros before' Hs Hle.
    + (* both read from the first opener on: the closer lies in [rest] *)
      simpl in Hs.
      destruct (append_overlap opener before' "" rest
                  (group ++ closer ++ after') Hs) as [y Hy].
      apply (partition_None _ _ E2 (y ++ group) after').
      by rewrite append_assoc.
    + destruct before' as [|c' before']; simpl in Hle; [lia|].
      simpl in Hs. injection Hs as <- Hs. apply (IH before' Hs). lia.
  - intros _ group (before' & after' & Hs).
    by apply (partition_None _ _ E1 before' (group ++ closer ++ after')).
Qed.


End StringFacts.

(** ** Text Extractor *)

Section ExtractorFacts.

Context `{Collaborators}.

Lemma world_eta (w : world) :
  World (environ w) (files w) (sent w) (logged w) = w.
Proof. by destruct w. Qed.

(** The loop, started after the pages [seen], reads the pages [rest] in
    their order and leaves the world as it is. *)
Lemma extract_pages_from (seen rest : list (string + string))
    (text : string) (w : world) :
  extract_pages (seen ++ rest)%list (seq (length seen) (length rest)) text w =
  (match join_pages rest with
   | inl msg => inl (OtherError msg)
   | inr t => inr (text ++ t)
   end, w).
Proof.
  revert seen text. induction rest as [|page rest IH]; intros seen text.
  - simpl. by rewrite append_nil_r.
  - cbn [length seq extract_pages join_pages].
    unfold bind at 1, subscript.
    rewrite list_lookup_middle by done. unfold ret at 1.
    destruct page as [msg|page_text]; [done|].
    unfold bind, lift_call, ret.
    rewrite (cons_middle _ seen rest), (assoc_L app).
    replace (S (length seen)) with (length (seen ++ [inr page_text])%list)
      by (rewrite length_app; simpl; lia).
    rewrite IH. destruct (join_pages rest) as [msg|t]; [done|].
    by rewrite append_assoc.
Qed.

Lemma extract_pages_all (pages : list (string + string)) (w : world) :
  extract_pages pages (seq 0 (length pages)) "" w =
  (match join_pages pages with
   | inl msg => inl (OtherError msg)
   | inr t => inr t
   end, w).
Proof. exact (extract_pages_from [] pages "" w). Qed.

(** What a call of the Text Extractor does: with a readable document it
    returns the text and restores the world; otherwise it raises, and the
    temporary file, which holds the document, stays. *)
Lemma extract_text_from_pdf_run (content : list byte) (w : world) :
  extract_text_from_pdf content w =
  match read_pdf content with
  | inr text => (inr text, w)
  | inl msg =>
      (inl (HTTPException 500 ("Error extracting text from PDF: " ++ msg)),
       World (environ w) (<[mkstemp_name (files w) := content]> (files w))
         (sent w) (logged w ++ ["Error extracting text from PDF: " ++ msg]))
  end.
Proof.
  unfold extract_text_from_pdf, read_pdf, try_except, bind,
    with_NamedTemporaryFile, file_write, open_rb, os_unlink, ret, set_files.
  cbn [files environ sent logged].
  rewrite insert_insert_eq, lookup_insert_eq.
  destruct (PdfReader content) as [msg|pages]; [done|].
  cbn [lift_call]. unfold ret at 1.
  rewrite extract_pages_all.
  destruct (join_pages pages) as [msg|text]; [done|].
  cbn [files environ sent logged]. rewrite lookup_insert_eq.
  cbn [files environ sent logged].
  rewrite delete_insert_eq, delete_id by apply mkstemp_name_fresh.
  by rewrite world_eta.
Qed.

Lemma join_pages_texts (texts : list string) :
  join_pages (inr <$> texts) = inr (String.concat "" texts).
Proof.
  induction texts as [|t texts IH]; [done|].
  cbn [fmap list_fmap join_pages]. fold (fmap (M:=list) (@inr string string) texts).
  rewrite IH. destruct texts; [by rewrite append_nil_r | done].
Qed.

End ExtractorFacts.

(** ** CV Structurer and orchestration *)

Section StructurerFacts.

Context `{Collaborators}.

(** Without a credential the Structurer returns at line 100. *)
Lemma parse_cv_with_llm_unconfigured (cv_text : string) (w : world) :
  truthy (environ w !! "CEREBRAS_API_KEY") = false ->
  parse_cv_with_llm cv_text w = (inr demo_cv, w).
Proof.
  intros Hkey.
  unfold parse_cv_with_llm, try_except, bind, os_environ_get.
  by rewrite Hkey.
Qed.

(** The nested handlers of lines 185 to 204, flattened.  Only a
    [JSONDecodeError] of the whole completion leads to the patterns; any
    other exception, and every exception of the second decoding, leaves
    the block. *)
Lemma decode_content_run (content : string) (w : world) :
  decode_content (Some content) w =
  (match json_loads content with
   | inr v => inr v
   | inl e =>
       if is_JSONDecodeError e then
         match first_match [search_json_fence; search_plain_fence; search_braces]
                 content with
         | Some candidate => json_loads candidate
         | None => inl (HTTPException 500 "Failed to parse LLM response as JSON")
         end
       else inl e
   end, w).
Proof.
  unfold decode_content, try_except_class, try_except.
  destruct (json_loads content) as [e|v]; [|done].
  cbn [lift_exn raise]. destruct (is_JSONDecodeError e); [|done].
  cbn [first_match].
  destruct (search_json_fence content) as [g|].
  { by destruct (json_loads g). }
  destruct (search_plain_fence content) as [g|].
  { by destruct (json_loads g). }
  destruct (search_braces content) as [g|]; [|done].
  by destruct (json_loads g).
Qed.

(** With a credential and a completion, the outcome of the Structurer is
    the outcome of lines 183 to 206, an exception being translated at
    line 210. *)
Lemma parse_cv_with_llm_completion (cv_text key content : string) (w : world) :
  environ w !! "CEREBRAS_API_KEY" = Some key -> key <> "" ->
  chat_completions_create key "llama3.1-8b" (chat_messages cv_text)
    = inr (Some content) ->
  (parse_cv_with_llm cv_text w).1 =
  match (decode_content (Some content) w).1 with
  | inr v => inr v
  | inl e => inl (HTTPException 500 ("Error parsing CV with LLM: " ++ str e))
  end.
Proof.
  intros Hkey Hne Hchat.
  unfold parse_cv_with_llm, try_except, bind, os_environ_get, completion.
  cbv beta iota. rewrite Hkey. cbn [truthy negb].
  rewrite bool_decide_false by done. cbv beta iota. cbn [negb].
  rewrite Hkey. cbn [from_option id]. rewrite Hchat. cbn [lift_call ret].
  rewrite !decode_content_run. cbn [fst].
  destruct (json_loads content) as [e|v]; [|done].
  destruct (is_JSONDecodeError e); [|done].
  destruct (first_match _ content) as [g|]; [|done].
  by destruct (json_loads g).
Qed.

(** A request that declares a PDF runs the Text Extractor and then the
    Structurer; only the Structurer lies within the handler of line 236. *)
Lemma parse_cv_pdf (file : UploadFile) (w : world) :
  content_type file = Some "application/pdf" ->
  parse_cv file w =
  match extract_text_from_pdf (file_bytes file) w with
  | (inl e, w1) => (inl e, w1)
  | (inr cv_text, w1) =>
      match parse_cv_with_llm cv_text w1 with
      | (inr v, w2) => (inr v, w2)
      | (inl e, w2) =>
          (inl (HTTPException 500
                  ("Failed to process CV: " ++ str e
                   ++ ". Please ensure the PDF is valid and not corrupted.")),
           World (environ w2) (files w2) (sent w2)
             (logged w2 ++ ["Error processing CV: " ++ str e]))
      end
  end.
Proof.
  intros Hct. unfold parse_cv. rewrite bool_decide_false by (rewrite Hct; auto).
  unfold bind at 1, ret at 1. unfold bind at 1.
  destruct (extract_text_from_pdf (file_bytes file) w) as [[e|cv_text] w1]; [done|].
  unfold try_except, bind.
  by destruct (parse_cv_with_llm cv_text w1) as [[e|v] w2].
Qed.

(** The Structurer raises nothing but an [HTTPException] of status 500
    whose detail starts with the words of line 210. *)
Lemma parse_cv_with_llm_raises (cv_text : string) (w w' : world) (e : exn) :
  parse_cv_with_llm cv_text w = (inl e, w') ->
  exists original,
    e = HTTPException 500 ("Error parsing CV with LLM: " ++ original).
Proof.
  unfold parse_cv_with_llm, try_except.
  match goal with
  | |- context [match ?body w with _ => _ end] =>
      destruct (body w) as [[e0|v] w0]
  end; [|done].
  unfold bind, logger_error, raise. intros [= <- _]. by exists (str e0).
Qed.

(** The code refines the chain of the specification in one direction:
    a value that lines 183 to 206 return is the value of the chain.  The
    converse fails, see [recovery_stops_at_undecodable_fence]. *)
Lemma decode_content_within_chain (content : string) (v : json) (w : world) :
  (decode_content (Some content) w).1 = inr v ->
  recovery_chain json_loads content = Some v.
Proof.
  rewrite decode_content_run. cbn [fst].
  unfold recovery_chain, recovery_steps. cbn [first_success first_match].
  destruct (json_loads content) as [e|v0]; [|by intros [= ->]].
  destruct (is_JSONDecodeError e); [|done].
  destruct (search_json_fence content) as [g|].
  { destruct (json_loads g) as [msg'|v0]; [done | by intros [= ->]]. }
  destruct (search_plain_fence content) as [g|].
  { destruct (json_loads g) as [msg'|v0]; [done | by intros [= ->]]. }
  destruct (search_braces content) as [g|]; [|done].
  destruct (json_loads g) as [msg'|v0]; [done | by intros [= ->]].
Qed.

End StructurerFacts.

(** * The claims *)

Section Claims.

Context `{Collaborators}.

(** C1 (the code does not do this).  The claim: the Text Extractor
    releases its temporary file on every exit path.  What the code does
    when the document cannot be read (the reader or a page raises): the
    call raises the [HTTPException] of line 92, and the temporary file,
    which did not exist before the call, exists after it and holds the
    document.  Line 88 removes the file on the path of success only. *)
Theorem temporary_file_survives_failure
    (content : list byte) (msg : string) (w : world) :
  read_pdf content = inl msg ->
  exists w',
    extract_text_from_pdf content w
      = (inl (HTTPException 500 ("Error extracting text from PDF: " ++ msg)), w')
    /\ files w !! mkstemp_name (files w) = None
    /\ files w' !! mkstemp_name (files w) = Some content.
Proof.
  intros Hread. rewrite extract_text_from_pdf_run, Hread.
  eexists. split; [reflexivity|]. split; [apply mkstemp_name_fresh|].
  cbn [files]. apply lookup_insert_eq.
Qed.


(** C3 (amended).  For a document that is read and has no page, the Text
    Extractor returns the empty string; it does not fail, and the world is
    as before the call. *)
Theorem zero_pages_give_empty_text (content : list byte) (w : world) :
  PdfReader content = inr [] ->
  extract_text_from_pdf content w = (inr "", w).
Proof.
  intros Hpages. rewrite extract_text_from_pdf_run.
  unfold read_pdf. by rewrite Hpages.
Qed.



(** C6 (amended).  A request whose declared content type is not exactly
    [application/pdf] is answered with status 400 and the exact message
    [Only PDF files are supported], which has no final full stop; the
    world is untouched: no file is written, nothing is sent, nothing is
    logged.  A request that declares [application/pdf] is never answered
    with status 400. *)
Theorem content_type_gate (file : UploadFile) (w : world) :
  (content_type file <> Some "application/pdf" ->
     post_parse_cv file w
       = (Response 400 (JDict [("detail", JStr "Only PDF files are supported")]),
          w))
  /\ (content_type file = Some "application/pdf" ->
        status (post_parse_cv file w).1 <> 400).
Proof.
  split.
  - intros Hct. unfold post_parse_cv, serve, parse_cv.
    by rewrite bool_decide_true.
  - intros Hct. unfold post_parse_cv, serve.
    rewrite (parse_cv_pdf _ _ Hct), extract_text_from_pdf_run.
    destruct (read_pdf (file_bytes file)) as [msg|text]; [done|].
    destruct (parse_cv_with_llm text w) as [[e|v] w2] eqn:Hllm; [|done].
    destruct (parse_cv_with_llm_raises _ _ _ _ Hllm) as [original ->]. done.
Qed.

(** C7.  For a document that is read, with pages whose texts are
    [texts] in page order, the Text Extractor returns the texts joined in
    that order with no separator, and the world is as before the call;
    when every page text is empty the result is the empty string, which is
    returned and not raised. *)
Theorem extracted_text_is_concatenation
    (content : list byte) (texts : list string) (w : world) :
  PdfReader content = inr (inr <$> texts) ->
  extract_text_from_pdf content w = (inr (String.concat "" texts), w)
  /\ ((forall t, t ∈ texts -> t = "") ->
      extract_text_from_pdf content w = (inr "", w)).
Proof.
  intros Hpages.
  assert (extract_text_from_pdf content w = (inr (String.concat "" texts), w))
    as Hrun.
  { rewrite extract_text_from_pdf_run. unfold read_pdf.
    by rewrite Hpages, join_pages_texts. }
  split; [exact Hrun|]. intros Hempty. rewrite Hrun. do 2 f_equal.
  clear Hpages Hrun. induction texts as [|t texts IH]; [done|].
  assert (t = "") as -> by (apply Hempty; left).
  assert (String.concat "" texts = "") as Hrest.
  { apply IH. intros t Ht. apply Hempty. by right. }
  cbn [String.concat]. destruct texts; [done|]. by rewrite Hrest.
Qed.

(** C8.  [GET /health] answers status 200 with the body
    [{"status": "healthy"}] in every world and with every collaborator,
    and changes nothing. *)
Theorem health_is_always_healthy (w : world) :
  get_health w = (Response 200 (JDict [("status", JStr "healthy")]), w).
Proof. reflexivity. Qed.

(** C9.  With a credential, when the completion decodes to a value [v]
    that is not a mapping, or raises a [JSONDecodeError] while the content
    of its first fenced block (labelled [json], else unlabelled) decodes
    to such a value [v], the Structurer succeeds and returns [v] itself,
    which is not a mapping. *)
Theorem non_mapping_value_is_returned
    (cv_text key content : string) (v : json) (w : world) :
  environ w !! "CEREBRAS_API_KEY" = Some key -> key <> "" ->
  chat_completions_create key "llama3.1-8b" (chat_messages cv_text)
    = inr (Some content) ->
  is_dict v = false ->
  (json_loads content = inr v
   \/ exists msg g,
        json_loads content = inl (JSONDecodeError msg)
        /\ first_match [search_json_fence; search_plain_fence] content = Some g
        /\ json_loads g = inr v) ->
  (parse_cv_with_llm cv_text w).1 = inr v
  /\ forall items, (parse_cv_with_llm cv_text w).1 <> inr (JDict items).
Proof.
  intros Hkey Hne Hchat Hv Hdec.
  assert ((parse_cv_with_llm cv_text w).1 = inr v) as Hrun.
  { rewrite (parse_cv_with_llm_completion _ _ _ _ Hkey Hne Hchat).
    rewrite decode_content_run. cbn [fst].
    destruct Hdec as [Hwhole | (msg & g & Hwhole & Hfence & Hg)].
    - by rewrite Hwhole.
    - rewrite Hwhole. cbn [is_JSONDecodeError first_match] in *.
      destruct (search_json_fence content) as [g1|].
      + injection Hfence as ->. by rewrite Hg.
      + destruct (search_plain_fence content) as [g2|]; [|done].
        injection Hfence as ->. by rewrite Hg. }
  split; [exact Hrun|]. intros items. rewrite Hrun. intros [= ->]. done.
Qed.

(** C10.  For a request that declares [application/pdf] while no
    credential is configured, the handler is the Text Extractor followed
    by the return of the demo structure: the Extractor runs first, on the
    uploaded bytes, and when the document cannot be read the response is
    the extraction failure of status 500 and not the demo structure. *)
Theorem demo_mode_still_extracts (file : UploadFile) (w : world) :
  content_type file = Some "application/pdf" ->
  truthy (environ w !! "CEREBRAS_API_KEY") = false ->
  post_parse_cv file w
    = serve (extract_text_from_pdf (file_bytes file) ;;; ret demo_cv) w
  /\ (forall msg,
        read_pdf (file_bytes file) = inl msg ->
        (post_parse_cv file w).1
          = Response 500
              (JDict [("detail",
                       JStr ("Error extracting text from PDF: " ++ msg))])
        /\ body (post_parse_cv file w).1 <> demo_cv).
Proof.
  intros Hct Hkey.
  assert (post_parse_cv file w
          = serve (extract_text_from_pdf (file_bytes file) ;;; ret demo_cv) w)
    as Hrun.
  { unfold post_parse_cv, serve, bind.
    rewrite (parse_cv_pdf _ _ Hct), extract_text_from_pdf_run.
    destruct (read_pdf (file_bytes file)) as [msg|text]; [done|].
    by rewrite parse_cv_with_llm_unconfigured. }
  split; [exact Hrun|]. intros msg Hread. rewrite Hrun.
  unfold serve, bind. rewrite extract_text_from_pdf_run, Hread.
  split; [done|]. cbn [fst body]. discriminate.
Qed.

End Claims.

(** * The claims at concrete inputs *)

Lemma temporary_file_survives_failure_witness :
  @read_pdf no_pdf (list_byte_of_string "not a pdf") = inl "EOF marker not found"
  /\ exists w',
       @extract_text_from_pdf no_pdf (list_byte_of_string "not a pdf") demo_world
         = (inl (HTTPException 500
                   ("Error extracting text from PDF: " ++ "EOF marker not found")),
            w')
       /\ files demo_world !! @mkstemp_name no_pdf (files demo_world) = None
       /\ files w' !! @mkstemp_name no_pdf (files demo_world)
            = Some (list_byte_of_string "not a pdf").
Proof.
  split; [reflexivity|].
  apply (@temporary_file_survives_failure no_pdf). reflexivity.
Defined.



(** C3 as the claim words it fails: a document without pages is read, and
    the Text Extractor returns a string. *)
Lemma zero_page_document_yields_text :
  @PdfReader blank_pdf (list_byte_of_string "%PDF-1.4") = inr []
  /\ ~ (exists e w',
         @extract_text_from_pdf blank_pdf (list_byte_of_string "%PDF-1.4")
           demo_world = (inl e, w')).
Proof.
  split; [reflexivity|]. intros (e & w' & Hraise).
  rewrite extract_text_from_pdf_run in Hraise. discriminate Hraise.
Defined.

Lemma zero_pages_give_empty_text_witness :
  @PdfReader blank_pdf (list_byte_of_string "%PDF-1.4") = inr []
  /\ @extract_text_from_pdf blank_pdf (list_byte_of_string "%PDF-1.4") demo_world
       = (inr "", demo_world).
Proof.
  split; [reflexivity|].
  apply (@zero_pages_give_empty_text blank_pdf). reflexivity.
Defined.




(** C6 as the claim words it fails: the message of the rejection has no
    final full stop. *)
Lemma rejection_message_has_no_full_stop :
  content_type text_upload <> Some "application/pdf"
  /\ (@post_parse_cv no_pdf text_upload demo_world).1
       = Response 400 (JDict [("detail", JStr "Only PDF files are supported")])
  /\ (@post_parse_cv no_pdf text_upload demo_world).1
       <> Response 400 (JDict [("detail", JStr "Only PDF files are supported.")]).
Proof.
  split; [discriminate|]. split; [reflexivity|]. discriminate.
Defined.

Lemma content_type_gate_witness :
  content_type text_upload <> Some "application/pdf"
  /\ @post_parse_cv two_pages text_upload keyed_world
       = (Response 400 (JDict [("detail", JStr "Only PDF files are supported")]),
          keyed_world)
  /\ content_type (pdf_upload "%PDF-1.4") = Some "application/pdf"
  /\ status (@post_parse_cv two_pages (pdf_upload "%PDF-1.4") keyed_world).1 <> 400.
Proof.
  destruct (@content_type_gate two_pages text_upload keyed_world) as [Hreject _].
  destruct (@content_type_gate two_pages (pdf_upload "%PDF-1.4") keyed_world)
    as [_ Haccept].
  split; [discriminate|]. split; [apply Hreject; discriminate|].
  split; [reflexivity|]. apply Haccept. reflexivity.
Defined.

Lemma extracted_text_is_concatenation_witness :
  @PdfReader two_pages (list_byte_of_string "%PDF-1.4")
    = inr (inr <$> ["Hello "; "World"])
  /\ @extract_text_from_pdf two_pages (list_byte_of_string "%PDF-1.4") demo_world
       = (inr "Hello World", demo_world).
Proof.
  split; [reflexivity|].
  destruct (@extracted_text_is_concatenation two_pages
              (list_byte_of_string "%PDF-1.4") ["Hello "; "World"] demo_world)
    as [Hrun _]; [reflexivity|].
  exact Hrun.
Defined.

Lemma non_mapping_value_is_returned_witness :
  environ keyed_world !! "CEREBRAS_API_KEY" = Some "csk-example"
  /\ "csk-example" <> ""
  /\ @chat_completions_create listing "csk-example" "llama3.1-8b"
       (chat_messages "cv") = inr (Some "[1, 2]")
  /\ is_dict (JList [JInt 1; JInt 2]) = false
  /\ @json_loads listing "[1, 2]" = inr (JList [JInt 1; JInt 2])
  /\ (@parse_cv_with_llm listing "cv" keyed_world).1
     = inr (JList [JInt 1; JInt 2]).
Proof.
  split; [reflexivity|]. split; [discriminate|]. split; [reflexivity|].
  split; [reflexivity|]. split; [vm_compute; reflexivity|].
  destruct (@non_mapping_value_is_returned listing "cv" "csk-example" "[1, 2]"
              (JList [JInt 1; JInt 2]) keyed_world) as [Hrun _];
    [reflexivity | discriminate | reflexivity | reflexivity | | exact Hrun].
  left. vm_compute. reflexivity.
Defined.

Lemma demo_mode_still_extracts_witness :
  content_type (pdf_upload "not a pdf") = Some "application/pdf"
  /\ truthy (environ demo_world !! "CEREBRAS_API_KEY") = false
  /\ @read_pdf no_pdf (file_bytes (pdf_upload "not a pdf"))
       = inl "EOF marker not found"
  /\ (@post_parse_cv no_pdf (pdf_upload "not a pdf") demo_world).1
       = Response 500
           (JDict [("detail",
                    JStr ("Error extracting text from PDF: "
                          ++ "EOF marker not found"))])
  /\ body (@post_parse_cv no_pdf (pdf_upload "not a pdf") demo_world).1 <> demo_cv.
Proof.
  split; [reflexivity|]. split; [reflexivity|]. split; [reflexivity|].
  destruct (@demo_mode_still_extracts no_pdf (pdf_upload "not a pdf") demo_world)
    as [_ Hfail]; [reflexivity | reflexivity |].
  apply (Hfail "EOF marker not found"). reflexivity.
Defined.

(** * The test cases of the specification, section 8 *)

(** A completion that is exactly a JSON object is returned as the mapping. *)
Example completion_that_is_json :
  (@parse_cv_with_llm
     (example_collaborators (pages_of [])
        (answering (json_text "{'name': 'Alice'}")))
     "cv" keyed_world).1
  = inr (JDict [("name", JStr "Alice")]).
Proof. vm_compute. reflexivity. Qed.

(** The same object in a block labelled [json] is recovered. *)
Example completion_in_json_fence :
  (@parse_cv_with_llm
     (example_collaborators (pages_of [])
        (answering ("```json" ++ LF ++ json_text "{'name': 'Alice'}" ++ LF ++ "```")))
     "cv" keyed_world).1
  = inr (JDict [("name", JStr "Alice")]).
Proof. vm_compute. reflexivity. Qed.

(** An object in an unlabelled block is recovered. *)
Example completion_in_plain_fence :
  (@parse_cv_with_llm
     (example_collaborators (pages_of [])
        (answering ("Here:" ++ LF ++ "```" ++ LF
                    ++ json_text "{'name': 'Alice'}" ++ LF ++ "```")))
     "cv" keyed_world).1
  = inr (JDict [("name", JStr "Alice")]).
Proof. vm_compute. reflexivity. Qed.

(** An object embedded in free text is recovered by the brace pattern. *)
Example completion_with_embedded_object :
  (@parse_cv_with_llm
     (example_collaborators (pages_of [])
        (answering (json_text "Sure, here: {'name': 'Bob'}")))
     "cv" keyed_world).1
  = inr (JDict [("name", JStr "Bob")]).
Proof. vm_compute. reflexivity. Qed.

(** A completion without anything like JSON fails with status 500. *)
Example completion_without_json :
  (@parse_cv_with_llm
     (example_collaborators (pages_of [])
        (answering "I cannot read this CV."))
     "cv" keyed_world).1
  = inl (HTTPException 500
           "Error parsing CV with LLM: 500: Failed to parse LLM response as JSON").
Proof. vm_compute. reflexivity. Qed.

(** The request that reaches the completion service is recorded, with the
    configured key and the text inside the prompt. *)
Example completion_request_is_sent :
  sent (@parse_cv_with_llm listing "cv" keyed_world).2
  = [ChatRequest "csk-example" "llama3.1-8b"
       [("system", "You are an expert CV parser that outputs only valid JSON.");
        ("user", prompt_head ++ "cv" ++ prompt_tail)]].
Proof. vm_compute. reflexivity. Qed.

(** A readable document leaves no temporary file behind; an unreadable
    one leaves exactly one file, which holds the upload. *)
Example files_after_extraction :
  files (@extract_text_from_pdf two_pages (list_byte_of_string "%PDF-1.4")
           demo_world).2 = ∅
  /\ size (files (@extract_text_from_pdf no_pdf (list_byte_of_string "not a pdf")
                    demo_world).2) = 1%nat.
Proof.
  rewrite !extract_text_from_pdf_run. split; [reflexivity|].
  cbn [read_pdf PdfReader no_pdf example_collaborators unreadable snd files].
  by rewrite map_size_insert_None by apply lookup_empty.
Qed.

(** * Further properties of the code *)

(** ** Text Extractor, lines 65 to 92 *)

Section ExtractorMore.

Context `{Collaborators}.

Lemma join_pages_first_failure (texts : list string) (msg : string)
    (later : list (string + string)) :
  join_pages ((inr <$> texts) ++ inl msg :: later)%list = inl msg.
Proof.
  induction texts as [|t texts IH]; [done|].
  cbn [fmap list_fmap app join_pages].
  fold (fmap (M:=list) (@inr string string) texts). by rewrite IH.
Qed.

(** X1.  Whether it returns or raises, the Text Extractor leaves every
    file that existed before the call with its content, and changes
    neither the environment nor the requests sent. *)
Theorem extraction_keeps_existing_files
    (content : list byte) (w : world) (path : string) (data : list byte) :
  files w !! path = Some data ->
  files (extract_text_from_pdf content w).2 !! path = Some data
  /\ environ (extract_text_from_pdf content w).2 = environ w
  /\ sent (extract_text_from_pdf content w).2 = sent w.
Proof.
  intros Hpath. rewrite extract_text_from_pdf_run.
  destruct (read_pdf content) as [msg|text]; [|done].
  cbn [snd files environ sent]. split; [|done].
  rewrite lookup_insert_ne; [done|].
  intros Heq. rewrite <- Heq, mkstemp_name_fresh in Hpath. discriminate Hpath.
Qed.

(** X2.  When the text of a page cannot be extracted, the texts of the
    pages before it being extracted, the call raises with the message of
    that page, whatever the pages after it hold: no partial text is
    returned. *)
Theorem first_unreadable_page_fails_extraction
    (content : list byte) (texts : list string) (msg : string)
    (later : list (string + string)) (w : world) :
  PdfReader content = inr ((inr <$> texts) ++ inl msg :: later)%list ->
  (extract_text_from_pdf content w).1
    = inl (HTTPException 500 ("Error extracting text from PDF: " ++ msg)).
Proof.
  intros Hpages. rewrite extract_text_from_pdf_run. unfold read_pdf.
  by rewrite Hpages, join_pages_first_failure.
Qed.

(** X3.  Every exception that leaves the Text Extractor is an
    [HTTPException] of status 500 whose detail is [Error extracting text
    from PDF: ] followed by the message of the failure, and that same
    text is the one record the call adds to the log. *)
Theorem extraction_failure_is_logged_once
    (content : list byte) (w w' : world) (e : exn) :
  extract_text_from_pdf content w = (inl e, w') ->
  exists msg,
    read_pdf content = inl msg
    /\ e = HTTPException 500 ("Error extracting text from PDF: " ++ msg)
    /\ logged w'
       = (logged w ++ [("Error extracting text from PDF: " ++ msg)%string])%list.
Proof.
  rewrite extract_text_from_pdf_run.
  destruct (read_pdf content) as [msg|text]; [|done].
  intros [= <- <-]. by exists msg.
Qed.

(** X4.  Failed extractions pile up: after two calls that fail, the
    temporary files of both calls exist, under different names, each
    holding the bytes of its call, and the file system holds two files
    more than before. *)
Theorem failed_extractions_pile_up
    (content1 content2 : list byte) (msg1 msg2 : string) (w : world) :
  read_pdf content1 = inl msg1 ->
  read_pdf content2 = inl msg2 ->
  let w1 := (extract_text_from_pdf content1 w).2 in
  let w2 := (extract_text_from_pdf content2 w1).2 in
  let name1 := mkstemp_name (files w) in
  let name2 := mkstemp_name (files w1) in
  name1 <> name2
  /\ files w2 !! name1 = Some content1
  /\ files w2 !! name2 = Some content2
  /\ size (files w2) = S (S (size (files w))).
Proof.
  intros Hread1 Hread2. cbv zeta.
  rewrite !extract_text_from_pdf_run, Hread1, Hread2.
  cbn [snd files].
  set (fs := files w). set (name1 := mkstemp_name fs).
  set (name2 := mkstemp_name (<[name1:=content1]> fs)).
  assert (name1 <> name2) as Hne.
  { intros Heq.
    pose proof (mkstemp_name_fresh (<[name1:=content1]> fs)) as Hfresh.
    fold name2 in Hfresh. rewrite <- Heq, lookup_insert_eq in Hfresh.
    discriminate Hfresh. }
  split; [exact Hne|]. split.
  { rewrite lookup_insert_ne by (intros Heq; by apply Hne).
    apply lookup_insert_eq. }
  split; [apply lookup_insert_eq|].
  rewrite map_size_insert_None by apply mkstemp_name_fresh.
  by rewrite map_size_insert_None by apply mkstemp_name_fresh.
Qed.

End ExtractorMore.

(** ** CV Structurer, lines 94 to 210 *)

Section StructurerMore.

Context `{Collaborators}.

Lemma decode_content_world (content : option string) (w : world) :
  (decode_content content w).2 = w.
Proof.
  destruct content as [content|]; [|done]. by rewrite decode_content_run.
Qed.

(** The body of the [try] statement of line 96, with a credential. *)
Lemma parse_cv_with_llm_configured (cv_text key : string) (w : world) :
  environ w !! "CEREBRAS_API_KEY" = Some key -> key <> "" ->
  parse_cv_with_llm cv_text w =
  let w1 := World (environ w) (files w)
              (sent w ++ [ChatRequest key "llama3.1-8b" (chat_messages cv_text)])
              (logged w) in
  let outcome :=
    match chat_completions_create key "llama3.1-8b" (chat_messages cv_text) with
    | inl msg => inl (OtherError msg)
    | inr content => (decode_content content w1).1
    end in
  match outcome with
  | inr v => (inr v, w1)
  | inl e =>
      (inl (HTTPException 500 ("Error parsing CV with LLM: " ++ str e)),
       World (environ w) (files w)
         (sent w ++ [ChatRequest key "llama3.1-8b" (chat_messages cv_text)])
         (logged w ++ ["Error parsing CV with LLM: " ++ str e]))
  end.
Proof.
  intros Hkey Hne.
  unfold parse_cv_with_llm, try_except, bind, os_environ_get, completion.
  cbv beta iota zeta. rewrite Hkey. cbn [truthy negb].
  rewrite bool_decide_false by done. cbv beta iota. cbn [negb].
  rewrite Hkey. cbn [from_option id].
  destruct (chat_completions_create key "llama3.1-8b" (chat_messages cv_text))
    as [msg|content]; [done|].
  cbn [lift_call ret].
  match goal with
  | |- context [decode_content content ?w1] =>
      pose proof (decode_content_world content w1) as Hw;
      destruct (decode_content content w1) as [[e|v] w2]
  end; cbn [snd fst] in *; by subst w2.
Qed.

(** X5.  With a credential, one call of the Structurer sends exactly one
    request to the completion service, whatever the service answers and
    whether or not the answer can be decoded: it carries the configured
    key, the model [llama3.1-8b], and the system and user messages; the
    call changes neither the files nor the environment. *)
Theorem configured_structurer_sends_one_request
    (cv_text key : string) (w : world) :
  environ w !! "CEREBRAS_API_KEY" = Some key -> key <> "" ->
  sent (parse_cv_with_llm cv_text w).2
    = (sent w ++ [ChatRequest key "llama3.1-8b"
                    [("system", "You are an expert CV parser that outputs only valid JSON.");
                     ("user", (prompt_head ++ cv_text ++ prompt_tail)%string)]])%list
  /\ files (parse_cv_with_llm cv_text w).2 = files w
  /\ environ (parse_cv_with_llm cv_text w).2 = environ w.
Proof.
  intros Hkey Hne. rewrite (parse_cv_with_llm_configured _ _ _ Hkey Hne).
  cbv zeta.
  destruct (chat_completions_create key "llama3.1-8b" (chat_messages cv_text))
    as [msg|content]; [done|].
  by destruct (decode_content content _).1.
Qed.

(** X6.  With a credential, when the completion service raises, the
    Structurer raises an [HTTPException] of status 500 whose detail is
    [Error parsing CV with LLM: ] followed by the message of the service;
    the call is not repeated. *)
Theorem service_failure_is_status_500
    (cv_text key msg : string) (w : world) :
  environ w !! "CEREBRAS_API_KEY" = Some key -> key <> "" ->
  chat_completions_create key "llama3.1-8b" (chat_messages cv_text) = inl msg ->
  (parse_cv_with_llm cv_text w).1
    = inl (HTTPException 500 ("Error parsing CV with LLM: " ++ msg))
  /\ length (sent (parse_cv_with_llm cv_text w).2) = S (length (sent w)).
Proof.
  intros Hkey Hne Hchat. rewrite (parse_cv_with_llm_configured _ _ _ Hkey Hne).
  cbv zeta. rewrite Hchat. cbn [fst snd sent str]. split; [done|].
  rewrite length_app. cbn [length]. lia.
Qed.

(** X7.  With a credential, when the content of the completion is [None]
    and not a string, no decoding is attempted and the Structurer returns
    that [None] (the JSON [null]) as its result, without error. *)
Theorem missing_content_is_returned
    (cv_text key : string) (w : world) :
  environ w !! "CEREBRAS_API_KEY" = Some key -> key <> "" ->
  chat_completions_create key "llama3.1-8b" (chat_messages cv_text) = inr None ->
  (parse_cv_with_llm cv_text w).1 = inr JNull
  /\ logged (parse_cv_with_llm cv_text w).2 = logged w.
Proof.
  intros Hkey Hne Hchat. rewrite (parse_cv_with_llm_configured _ _ _ Hkey Hne).
  cbv zeta. by rewrite Hchat.
Qed.

(** X8.  In every world, a call of the Structurer that returns adds
    nothing to the log, and a call that raises raises an [HTTPException] of
    status 500 and adds exactly one record, which is the detail of that
    exception. *)
Theorem structurer_logs_its_failure (cv_text : string) (w : world) :
  match parse_cv_with_llm cv_text w with
  | (inr _, w') => logged w' = logged w
  | (inl e, w') =>
      exists original,
        e = HTTPException 500 ("Error parsing CV with LLM: " ++ original)
        /\ logged w'
           = (logged w ++ [("Error parsing CV with LLM: " ++ original)%string])%list
  end.
Proof.
  destruct (truthy (environ w !! "CEREBRAS_API_KEY")) eqn:Hkey.
  - destruct (environ w !! "CEREBRAS_API_KEY") as [key|] eqn:Henv; [|done].
    cbn [truthy] in Hkey. apply negb_true_iff in Hkey.
    apply bool_decide_eq_false in Hkey.
    rewrite (parse_cv_with_llm_configured _ _ _ Henv Hkey). cbv zeta.
    match goal with
    | |- context [match ?o with inl _ => _ | inr _ => _ end] =>
        destruct o as [e|v]
    end; [|done].
    by exists (str e).
  - by rewrite parse_cv_with_llm_unconfigured.
Qed.

End StructurerMore.

(** ** The patterns of lines 190, 195 and 200 *)

Section PatternsMore.


Lemma search_fenced_iff (opener closer s : string) :
  (exists g, search_fenced opener closer s = Some g)
  <-> exists g, fenced_in opener closer s g.
Proof.
  split.
  - intros [g Hg]. exists g. by apply search_fenced_sound.
  - intros [g Hg]. destruct (search_fenced opener closer s) as [g'|] eqn:E.
    + by exists g'.
    + exfalso. by apply (search_fenced_None _ _ _ E g).
Qed.



(** X9.  The pattern for a block labelled [json] finds a block exactly
    when the completion holds the opening fence with its label and a line
    feed, followed somewhere later by a line feed and the closing fence;
    the same holds for the unlabelled pattern with the bare opening fence.
    A fence without these line feeds is not found. *)
Theorem fence_found_iff_opener_then_closer (s : string) :
  ((exists g, search_json_fence s = Some g)
   <-> exists g, fenced_in ("```json" ++ LF) (LF ++ "```") s g)
  /\ ((exists g, search_plain_fence s = Some g)
      <-> exists g, fenced_in ("```" ++ LF) (LF ++ "```") s g).
Proof. split; apply search_fenced_iff. Qed.


End PatternsMore.

(** ** Request orchestration, lines 212 to 242 *)

Section OrchestrationMore.

Context `{Collaborators}.

(** The Structurer changes neither the files nor the environment. *)
Lemma parse_cv_with_llm_frame (cv_text : string) (w : world) :
  files (parse_cv_with_llm cv_text w).2 = files w
  /\ environ (parse_cv_with_llm cv_text w).2 = environ w.
Proof.
  destruct (truthy (environ w !! "CEREBRAS_API_KEY")) eqn:Hkey.
  - destruct (environ w !! "CEREBRAS_API_KEY") as [key|] eqn:Henv; [|done].
    cbn [truthy] in Hkey. apply negb_true_iff in Hkey.
    apply bool_decide_eq_false in Hkey.
    rewrite (parse_cv_with_llm_configured _ _ _ Henv Hkey). cbv zeta.
    match goal with
    | |- context [match ?o with inl _ => _ | inr _ => _ end] =>
        by destruct o
    end.
  - by rewrite parse_cv_with_llm_unconfigured.
Qed.

(** What a failure of the Structurer raises and logs. *)
Lemma parse_cv_with_llm_failure (cv_text : string) (w w' : world) (e : exn) :
  parse_cv_with_llm cv_text w = (inl e, w') ->
  exists original,
    e = HTTPException 500 ("Error parsing CV with LLM: " ++ original)
    /\ logged w'
       = (logged w ++ [("Error parsing CV with LLM: " ++ original)%string])%list.
Proof.
  destruct (truthy (environ w !! "CEREBRAS_API_KEY")) eqn:Hkey.
  - destruct (environ w !! "CEREBRAS_API_KEY") as [key|] eqn:Henv; [|done].
    cbn [truthy] in Hkey. apply negb_true_iff in Hkey.
    apply bool_decide_eq_false in Hkey.
    rewrite (parse_cv_with_llm_configured _ _ _ Henv Hkey). cbv zeta.
    match goal with
    | |- context [match ?o with inl _ => _ | inr _ => _ end] =>
        destruct o as [e0|v]
    end; [|done].
    intros [= <- <-]. by exists (str e0).
  - by rewrite parse_cv_with_llm_unconfigured.
Qed.

(** X11.  When the extraction fails, nothing is sent to the completion
    service, with or without a credential: the Structurer is not run. *)
Theorem failed_extraction_sends_nothing
    (file : UploadFile) (msg : string) (w : world) :
  content_type file = Some "application/pdf" ->
  read_pdf (file_bytes file) = inl msg ->
  sent (post_parse_cv file w).2 = sent w.
Proof.
  intros Hct Hread. unfold post_parse_cv, serve.
  by rewrite (parse_cv_pdf _ _ Hct), extract_text_from_pdf_run, Hread.
Qed.



(** X14.  A failure of the Structurer is logged twice before the response
    is sent: first by the Structurer, with its detail, then by the
    handler, as [Error processing CV: ] followed by the text of the
    Structurer's exception. *)
Theorem structuring_failure_is_logged_twice
    (file : UploadFile) (cv_text : string) (e : exn) (w w' : world) :
  content_type file = Some "application/pdf" ->
  read_pdf (file_bytes file) = inr cv_text ->
  parse_cv_with_llm cv_text w = (inl e, w') ->
  exists original,
    e = HTTPException 500 ("Error parsing CV with LLM: " ++ original)
    /\ logged (post_parse_cv file w).2
       = (logged w ++ [("Error parsing CV with LLM: " ++ original)%string;
                       ("Error processing CV: " ++ str e)%string])%list.
Proof.
  intros Hct Hread Hllm.
  destruct (parse_cv_with_llm_failure _ _ _ _ Hllm) as (original & He & Hlog).
  exists original. split; [exact He|]. unfold post_parse_cv, serve.
  rewrite (parse_cv_pdf _ _ Hct), extract_text_from_pdf_run, Hread, Hllm.
  cbn [snd logged]. rewrite Hlog. by rewrite <- (assoc_L app).
Qed.

(** X15.  Whatever the upload and the outcome, [POST /parse-cv] leaves
    every file that existed before the request with its content and does
    not change the environment. *)
Theorem endpoint_keeps_environment_and_files
    (file : UploadFile) (w : world) (path : string) (data : list byte) :
  files w !! path = Some data ->
  files (post_parse_cv file w).2 !! path = Some data
  /\ environ (post_parse_cv file w).2 = environ w.
Proof.
  intros Hpath.
  destruct (decide (content_type file = Some "application/pdf")) as [Hct|Hct].
  - unfold post_parse_cv, serve.
    rewrite (parse_cv_pdf _ _ Hct), extract_text_from_pdf_run.
    destruct (read_pdf (file_bytes file)) as [msg|text].
    { cbn [snd files environ]. split; [|done].
      rewrite lookup_insert_ne; [done|].
      intros Heq. rewrite <- Heq, mkstemp_name_fresh in Hpath.
      discriminate Hpath. }
    destruct (parse_cv_with_llm_frame text w) as [Hfiles Henv].
    destruct (parse_cv_with_llm text w) as [[e|v] w2];
      cbn [snd files environ] in *; by rewrite Hfiles, Henv.
  - unfold post_parse_cv, serve, parse_cv. by rewrite bool_decide_true.
Qed.

End OrchestrationMore.

(** ** FlexibleModel, lines 35 to 58 *)

Section FlexibleModelMore.

(** The conversion of one field and of one list item. *)
Local Abbreviation convert_field :=
  (fun kv : string * pyobj => let '(key, x) := kv in x' ← convert x; Some (key, x')).

Local Abbreviation convert_item :=
  (fun item : pyobj =>
     match item with
     | VDict _ => convert item
     | _ => Some item
     end).

Lemma convert_dict (data : list (string * pyobj)) :
  convert (VDict data)
  = if has_key "self" data then None
    else VModel <$> mapM convert_field data.
Proof.
  cbn [convert]. destruct (has_key "self" data); [done|]. f_equal.
  induction data as [|[key x] rest IH]; [done|].
  cbn [mapM]. rewrite IH. destruct (convert x); [|done].
  cbn. by destruct (mapM _ rest).
Qed.

Lemma convert_list (items : list pyobj) :
  convert (VList items) = VList <$> mapM convert_item items.
Proof.
  reflexivity.
Qed.

Lemma FlexibleModel_fields (data : list (string * pyobj)) (m : pyobj) :
  FlexibleModel data = Some m ->
  has_key "self" data = false
  /\ exists fields,
       m = VModel fields
       /\ Forall2 (fun kv kv' => convert_field kv = Some kv') data fields.
Proof.
  unfold FlexibleModel. rewrite convert_dict.
  destruct (has_key "self" data); [done|]. split; [done|].
  destruct (mapM convert_field data) as [fields|] eqn:E; [|done].
  injection H as <-. exists fields. split; [done|]. by apply mapM_Some_1.
Qed.

Lemma pyobj_nested_ind (P : pyobj -> Prop) :
  P VNone -> (forall b, P (VBool b)) -> (forall n, P (VInt n)) ->
  (forall l, P (VFloat l)) -> (forall s, P (VStr s)) ->
  (forall items, Forall P items -> P (VList items)) ->
  (forall items, Forall (fun kv => P kv.2) items -> P (VDict items)) ->
  (forall fields, Forall (fun kv => P kv.2) fields -> P (VModel fields)) ->
  forall v, P v.
Proof.
  intros HNone HBool HInt HFloat HStr HList HDict HModel.
  fix IH 1. intros [ |b|n|l|s|items|items|fields].
  - exact HNone.
  - apply HBool.
  - apply HInt.
  - apply HFloat.
  - apply HStr.
  - apply HList.
    induction items as [|x items IHitems]; constructor; [apply IH | exact IHitems].
  - apply HDict.
    induction items as [|[k x] items IHitems]; constructor;
      [apply IH | exact IHitems].
  - apply HModel.
    induction fields as [|[k x] fields IHfields]; constructor;
      [apply IH | exact IHfields].
Qed.

(** Objects without instance, without key [self] and without list in a
    list are converted, and the result holds no [dict]. *)
Lemma convert_plain_and_flat (v : pyobj) :
  plain_and_flat v = true ->
  exists v', convert v = Some v' /\ dict_free v' = true.
Proof.
  induction v as [ |b|n|l|s|items IH|data IH|fields IH] using pyobj_nested_ind;
    intros Hflat.
  1-5: by eexists.
  3: discriminate Hflat.
  - (* a list *)
    rewrite convert_list. cbn [plain_and_flat] in Hflat.
    assert (exists items', mapM convert_item items = Some items'
                           /\ forallb dict_free items' = true) as (items' & -> & Hfree).
    { induction items as [|item rest IHrest]; [by exists []|].
      cbn [forallb] in Hflat. apply andb_true_iff in Hflat as [Hitem Hrest].
      apply Forall_cons in IH as [IHitem IHtail].
      destruct (IHrest IHtail Hrest) as (rest' & Erest & Hfree).
      assert (exists item', convert_item item = Some item'
                            /\ dict_free item' = true) as (item' & Eitem & Hitem').
      { destruct item; cbn in Hitem; try discriminate Hitem;
          try (by eexists). by apply IHitem. }
      exists (item' :: rest'). cbn [mapM]. rewrite Eitem, Erest. cbn.
      split; [done|]. by rewrite Hitem', Hfree. }
    by eexists.
  - (* a dict *)
    rewrite convert_dict. cbn [plain_and_flat] in Hflat.
    apply andb_true_iff in Hflat as [Hself Hvalues].
    apply negb_true_iff in Hself. rewrite Hself.
    assert (exists fields, mapM convert_field data = Some fields
              /\ forallb (fun kv => let '(_, x) := kv in dict_free x) fields = true)
      as (fields & -> & Hfree).
    { clear Hself. induction data as [|[key x] rest IHrest]; [by exists []|].
      cbn [forallb] in Hvalues. apply andb_true_iff in Hvalues as [Hx Hrest].
      apply Forall_cons in IH as [IHx IHtail]. cbn [snd] in IHx.
      destruct (IHrest IHtail Hrest) as (rest' & Erest & Hfree).
      destruct (IHx Hx) as (x' & Ex & Hx').
      exists ((key, x') :: rest'). cbn [mapM]. rewrite Ex. cbn. rewrite Erest. cbn.
      split; [done|]. by rewrite Hx', Hfree. }
    by eexists.
Qed.

Lemma convert_field_key (kv kv' : string * pyobj) :
  convert_field kv = Some kv' -> kv'.1 = kv.1.
Proof.
  destruct kv as [key x]. destruct (convert x) as [x'|]; [|done].
  by intros [= <-].
Qed.

(** X16.  A key named [self] makes the construction fail with the
    [TypeError] of the call: in the keyword arguments themselves, in a
    [dict] that is the value of a field, and in a [dict] that is an item of
    a list that is the value of a field. *)
Theorem self_key_breaks_the_model (data : list (string * pyobj)) :
  (has_key "self" data = true -> FlexibleModel data = None)
  /\ (forall i key inner,
        data !! i = Some (key, VDict inner) ->
        FlexibleModel inner = None -> FlexibleModel data = None)
  /\ (forall i key items j inner,
        data !! i = Some (key, VList items) ->
        items !! j = Some (VDict inner) ->
        FlexibleModel inner = None -> FlexibleModel data = None).
Proof.
  unfold FlexibleModel. split; [|split].
  - intros Hself. by rewrite convert_dict, Hself.
  - intros i key inner Hi Hinner. rewrite convert_dict.
    destruct (has_key "self" data); [done|].
    assert (mapM convert_field data = None) as ->; [|done].
    apply mapM_None_2, Exists_exists. exists (key, VDict inner).
    split; [by eapply list_elem_of_lookup_2|]. by rewrite Hinner.
  - intros i key items j inner Hi Hj Hinner. rewrite convert_dict.
    destruct (has_key "self" data); [done|].
    assert (mapM convert_field data = None) as ->; [|done].
    apply mapM_None_2, Exists_exists. exists (key, VList items).
    split; [by eapply list_elem_of_lookup_2|].
    rewrite convert_list.
    assert (mapM convert_item items = None) as ->; [|done].
    apply mapM_None_2, Exists_exists. exists (VDict inner).
    split; [by eapply list_elem_of_lookup_2 | done].
Qed.

(** X17.  For keyword arguments that hold no instance of a model, no key
    [self] and no list directly inside a list, the construction succeeds,
    the model has the keys of the arguments in their order, and no [dict]
    is left in it at any depth: every nested object has become a model. *)
Theorem flat_data_is_fully_wrapped (data : list (string * pyobj)) :
  plain_and_flat (VDict data) = true ->
  exists fields,
    FlexibleModel data = Some (VModel fields)
    /\ fields.*1 = data.*1
    /\ dict_free (VModel fields) = true.
Proof.
  intros Hflat.
  destruct (convert_plain_and_flat _ Hflat) as (m & Hm & Hfree).
  destruct (FlexibleModel_fields _ _ Hm) as (_ & fields & -> & Hfields).
  exists fields. split; [exact Hm|]. split; [|exact Hfree].
  clear Hm Hfree Hflat.
  induction Hfields as [|kv kv' rest rest' Hkv _ IH]; [done|].
  cbn [fmap list_fmap]. f_equal; [by apply convert_field_key | exact IH].
Qed.

(** X18.  A list that is directly an item of a list is handed on as it
    is: whatever it holds, a [dict] included, is not converted. *)
Theorem list_in_list_is_not_converted
    (data : list (string * pyobj)) (m : pyobj) (i j : nat) (key : string)
    (items inner : list pyobj) :
  FlexibleModel data = Some m ->
  data !! i = Some (key, VList items) ->
  items !! j = Some (VList inner) ->
  exists fields items',
    m = VModel fields
    /\ fields !! i = Some (key, VList items')
    /\ items' !! j = Some (VList inner).
Proof.
  intros Hm Hi Hj.
  destruct (FlexibleModel_fields _ _ Hm) as (_ & fields & -> & Hfields).
  destruct (Forall2_lookup_l _ _ _ _ _ Hfields Hi) as (kv' & Hi' & Hkv).
  cbn beta iota in Hkv. rewrite convert_list in Hkv.
  destruct (mapM convert_item items) as [items'|] eqn:Eitems; [|done].
  injection Hkv as <-. exists fields, items'. split; [done|]. split; [done|].
  apply mapM_Some_1 in Eitems.
  destruct (Forall2_lookup_l _ _ _ _ _ Eitems Hj) as (item' & Hj' & Hitem).
  by injection Hitem as <-.
Qed.

(** X19.  A model that is built has the keys of the keyword arguments, in
    their order, and every value that is neither a [dict] nor a [list] is
    the value of its key unchanged. *)
Theorem scalar_fields_are_kept
    (data : list (string * pyobj)) (m : pyobj) :
  FlexibleModel data = Some m ->
  exists fields,
    m = VModel fields
    /\ fields.*1 = data.*1
    /\ forall i key x,
         data !! i = Some (key, x) ->
         (forall d, x <> VDict d) -> (forall l, x <> VList l) ->
         fields !! i = Some (key, x).
Proof.
  intros Hm.
  destruct (FlexibleModel_fields _ _ Hm) as (_ & fields & -> & Hfields).
  exists fields. split; [done|]. split.
  - clear Hm. induction Hfields as [|kv kv' rest rest' Hkv _ IH]; [done|].
    cbn [fmap list_fmap]. f_equal; [by apply convert_field_key | exact IH].
  - intros i key x Hi Hdict Hlist.
    destruct (Forall2_lookup_l _ _ _ _ _ Hfields Hi) as (kv' & Hi' & Hkv).
    cbn beta iota in Hkv.
    destruct x; try (by injection Hkv as <-);
      [by destruct (Hlist items) | by destruct (Hdict items)].
Qed.

End FlexibleModelMore.

(** * The further properties at concrete inputs *)

Lemma extraction_keeps_existing_files_witness :
  files busy_world !! "/srv/notes.txt" = Some (list_byte_of_string "keep me")
  /\ files (@extract_text_from_pdf no_pdf (list_byte_of_string "not a pdf")
              busy_world).2 !! "/srv/notes.txt"
     = Some (list_byte_of_string "keep me").
Proof.
  split; [reflexivity|].
  destruct (@extraction_keeps_existing_files no_pdf
              (list_byte_of_string "not a pdf") busy_world "/srv/notes.txt"
              (list_byte_of_string "keep me")) as [Hkept _]; [reflexivity|].
  exact Hkept.
Defined.

Lemma first_unreadable_page_fails_extraction_witness :
  @PdfReader damaged_page (list_byte_of_string "%PDF-1.4")
    = inr ((inr <$> ["Hello "]) ++ inl "page 2 is damaged" :: [inr "World"])%list
  /\ (@extract_text_from_pdf damaged_page (list_byte_of_string "%PDF-1.4")
        demo_world).1
     = inl (HTTPException 500
              ("Error extracting text from PDF: " ++ "page 2 is damaged")).
Proof.
  split; [reflexivity|].
  apply (@first_unreadable_page_fails_extraction damaged_page
           (list_byte_of_string "%PDF-1.4") ["Hello "] "page 2 is damaged"
           [inr "World"] demo_world).
  reflexivity.
Defined.

Lemma extraction_failure_is_logged_once_witness :
  exists w',
    @extract_text_from_pdf no_pdf (list_byte_of_string "not a pdf") demo_world
      = (inl (HTTPException 500
                "Error extracting text from PDF: EOF marker not found"), w')
    /\ exists msg,
         @read_pdf no_pdf (list_byte_of_string "not a pdf") = inl msg
         /\ logged w'
            = (logged demo_world
               ++ [("Error extracting text from PDF: " ++ msg)%string])%list.
Proof.
  eexists. split; [rewrite extract_text_from_pdf_run; reflexivity|].
  destruct (@extraction_failure_is_logged_once no_pdf
              (list_byte_of_string "not a pdf") demo_world _ _
              (extract_text_from_pdf_run (list_byte_of_string "not a pdf") demo_world))
    as (msg & Hread & _ & Hlog).
  exists msg. split; [exact Hread | exact Hlog].
Defined.

Lemma failed_extractions_pile_up_witness :
  @read_pdf no_pdf (list_byte_of_string "first") = inl "EOF marker not found"
  /\ @read_pdf no_pdf (list_byte_of_string "second") = inl "EOF marker not found"
  /\ size (files
            (@extract_text_from_pdf no_pdf (list_byte_of_string "second")
               (@extract_text_from_pdf no_pdf (list_byte_of_string "first")
                  demo_world).2).2)
     = S (S (size (files demo_world))).
Proof.
  split; [reflexivity|]. split; [reflexivity|].
  pose proof (@failed_extractions_pile_up no_pdf
                (list_byte_of_string "first") (list_byte_of_string "second")
                "EOF marker not found" "EOF marker not found" demo_world
                eq_refl eq_refl) as Hpile.
  cbv zeta in Hpile. destruct Hpile as (_ & _ & _ & Hsize). exact Hsize.
Defined.

Lemma configured_structurer_sends_one_request_witness :
  environ keyed_world !! "CEREBRAS_API_KEY" = Some "csk-example"
  /\ "csk-example" <> ""
  /\ length (sent (@parse_cv_with_llm garbled "cv" keyed_world).2) = 1%nat.
Proof.
  split; [reflexivity|]. split; [discriminate|].
  destruct (@configured_structurer_sends_one_request garbled "cv" "csk-example"
              keyed_world) as [Hsent _]; [reflexivity | discriminate |].
  rewrite Hsent. reflexivity.
Defined.

Lemma service_failure_is_status_500_witness :
  environ keyed_world !! "CEREBRAS_API_KEY" = Some "csk-example"
  /\ "csk-example" <> ""
  /\ @chat_completions_create unreachable "csk-example" "llama3.1-8b"
       (chat_messages "cv") = inl "Connection error."
  /\ (@parse_cv_with_llm unreachable "cv" keyed_world).1
     = inl (HTTPException 500 ("Error parsing CV with LLM: " ++ "Connection error.")).
Proof.
  split; [reflexivity|]. split; [discriminate|]. split; [reflexivity|].
  destruct (@service_failure_is_status_500 unreachable "cv" "csk-example"
              "Connection error." keyed_world) as [Hfail _];
    [reflexivity | discriminate | reflexivity |].
  exact Hfail.
Defined.

Lemma missing_content_is_returned_witness :
  environ keyed_world !! "CEREBRAS_API_KEY" = Some "csk-example"
  /\ "csk-example" <> ""
  /\ @chat_completions_create silent "csk-example" "llama3.1-8b"
       (chat_messages "cv") = inr None
  /\ (@parse_cv_with_llm silent "cv" keyed_world).1 = inr JNull.
Proof.
  split; [reflexivity|]. split; [discriminate|]. split; [reflexivity|].
  destruct (@missing_content_is_returned silent "cv" "csk-example" keyed_world)
    as [Hnull _]; [reflexivity | discriminate | reflexivity |].
  exact Hnull.
Defined.


Lemma failed_extraction_sends_nothing_witness :
  content_type (pdf_upload "not a pdf") = Some "application/pdf"
  /\ @read_pdf no_pdf (file_bytes (pdf_upload "not a pdf"))
     = inl "EOF marker not found"
  /\ sent (@post_parse_cv no_pdf (pdf_upload "not a pdf") keyed_world).2
     = sent keyed_world.
Proof.
  split; [reflexivity|]. split; [reflexivity|].
  apply (@failed_extraction_sends_nothing no_pdf (pdf_upload "not a pdf")
           "EOF marker not found" keyed_world); reflexivity.
Defined.


Lemma structuring_failure_is_logged_twice_witness :
  content_type (pdf_upload "%PDF-1.4") = Some "application/pdf"
  /\ @read_pdf unreachable (file_bytes (pdf_upload "%PDF-1.4")) = inr "cv"
  /\ length (logged (@post_parse_cv unreachable (pdf_upload "%PDF-1.4")
                       keyed_world).2) = 2%nat.
Proof.
  split; [reflexivity|]. split; [reflexivity|].
  destruct (@structuring_failure_is_logged_twice unreachable
              (pdf_upload "%PDF-1.4") "cv"
              (HTTPException 500 "Error parsing CV with LLM: Connection error.")
              keyed_world
              (World (environ keyed_world) (files keyed_world)
                 [ChatRequest "csk-example" "llama3.1-8b" (chat_messages "cv")]
                 ["Error parsing CV with LLM: Connection error."]))
    as (original & _ & Hlog);
    [reflexivity | reflexivity | vm_compute; reflexivity |].
  rewrite Hlog. reflexivity.
Defined.

Lemma endpoint_keeps_environment_and_files_witness :
  files busy_world !! "/srv/notes.txt" = Some (list_byte_of_string "keep me")
  /\ files (@post_parse_cv no_pdf (pdf_upload "not a pdf") busy_world).2
       !! "/srv/notes.txt" = Some (list_byte_of_string "keep me")
  /\ environ (@post_parse_cv no_pdf (pdf_upload "not a pdf") busy_world).2
     = environ busy_world.
Proof.
  split; [reflexivity|].
  apply (@endpoint_keeps_environment_and_files no_pdf (pdf_upload "not a pdf")
           busy_world "/srv/notes.txt" (list_byte_of_string "keep me")).
  reflexivity.
Defined.

Lemma self_key_breaks_the_model_witness :
  nth_error self_data 0 = Some ("notes", VList [VDict [("self", VStr "assessment")]])
  /\ FlexibleModel [("self", VStr "assessment")] = None
  /\ FlexibleModel self_data = None.
Proof.
  split; [reflexivity|]. split; [reflexivity|].
  destruct (self_key_breaks_the_model self_data) as (_ & _ & Hitem).
  apply (Hitem 0%nat "notes" [VDict [("self", VStr "assessment")]] 0%nat
           [("self", VStr "assessment")]); reflexivity.
Defined.

Lemma flat_data_is_fully_wrapped_witness :
  plain_and_flat (VDict nested_data) = true
  /\ exists fields,
       FlexibleModel nested_data = Some (VModel fields)
       /\ fields.*1 = nested_data.*1
       /\ dict_free (VModel fields) = true.
Proof.
  split; [reflexivity|]. apply flat_data_is_fully_wrapped. reflexivity.
Defined.

Lemma list_in_list_is_not_converted_witness :
  FlexibleModel matrix_data
    = Some (VModel [("rows", VList [VList [VDict [("cell", VInt 1)]]])])
  /\ exists fields items',
       VModel [("rows", VList [VList [VDict [("cell", VInt 1)]]])] = VModel fields
       /\ fields !! 0%nat = Some ("rows", VList items')
       /\ items' !! 0%nat = Some (VList [VDict [("cell", VInt 1)]]).
Proof.
  split; [reflexivity|].
  apply (list_in_list_is_not_converted matrix_data _ 0 0 "rows"
           [VList [VDict [("cell", VInt 1)]]] [VDict [("cell", VInt 1)]]);
    reflexivity.
Defined.

Lemma scalar_fields_are_kept_witness :
  exists m,
    FlexibleModel nested_data = Some m
    /\ exists fields,
         m = VModel fields
         /\ fields.*1 = ["name"; "contact"; "skills"]
         /\ fields !! 0%nat = Some ("name", VStr "Alice").
Proof.
  eexists. split; [reflexivity|].
  destruct (scalar_fields_are_kept nested_data _ eq_refl)
    as (fields & Hm & Hkeys & Hscalar).
  exists fields. split; [exact Hm|]. split; [exact Hkeys|].
  apply Hscalar; [reflexivity | discriminate | discriminate].
Defined.

(** * An exception of the decoder that is no JSONDecodeError *)

(** The completion starts with an integer of 5000 digits.  The decoder
    refuses it with a [ValueError], which line 187 does not catch: the
    object that follows is not looked for, although the brace pattern
    finds it and it decodes, and the Structurer raises with status 500. *)
Example long_integer_skips_recovery :
  search_braces long_integer_completion = Some (json_text "{'a': 1}")
  /\ @json_loads long_integer (json_text "{'a': 1}")
     = inr (JDict [("a", JInt 1)])
  /\ (@parse_cv_with_llm long_integer "cv" keyed_world).1
     = inl (HTTPException 500
              ("Error parsing CV with LLM: "
               ++ "Exceeds the limit (4300 digits) for integer string conversion: "
               ++ "value has 5000 digits; "
               ++ "use sys.set_int_max_str_digits() to increase the limit")).
Proof.
  split; [vm_compute; reflexivity|]. split; vm_compute; reflexivity.
Qed.
